(** * firecrawl-simple: crawl submission, scraper clients and URL normalisation

    A shallow embedding of

    - [WebScraperDataProvider.normalizeUrl], [setOptions], [processLinks] and
      [applyPathReplacements]  (scraper/WebScraper/index.ts),
    - [scrapeWithFetch]        (scraper/WebScraper/scrapers/fetch.ts),
    - [scrapeWithPlaywright]   (scraper/WebScraper/scrapers/playwright.ts),
    - [startWebScraperPipeline] (main/runWebScraper.ts),
    - [crawlController]        (the v1 crawl controller),

    together with the properties the specification states about them. *)

From Stdlib Require Import ZArith String Ascii List Bool Lia DecimalString DecimalNat.
From stdpp Require Import base option gmap strings list fin_maps.

Local Open Scope string_scope.
Local Open Scope Z_scope.

(** ** JavaScript strings

    The two [String.prototype] methods used by [normalizeUrl], both called
    with a plain string pattern. *)

Module JsString.

(** [s.startsWith(p)]. *)
Fixpoint startsWith (p s : string) : bool :=
  match p, s with
  | EmptyString, _ => true
  | String a p', String b s' => if Ascii.eqb a b then startsWith p' s' else false
  | String _ _, EmptyString => false
  end.

(** [s.slice(n)] for [0 <= n]. *)
Fixpoint slice (n : nat) (s : string) : string :=
  match n, s with
  | O, _ => s
  | S n', String _ s' => slice n' s'
  | S _, EmptyString => EmptyString
  end.

(** [s.endsWith(p)]. *)
Definition endsWith (p s : string) : bool :=
  startsWith (String.rev p) (String.rev s).

(** [s.trimStart()] on the ASCII white space and line terminators. *)
Fixpoint trimStart (s : string) : string :=
  match s with
  | String c s' => if Ascii.is_space c then trimStart s' else s
  | EmptyString => EmptyString
  end.

(** [s.trim()]. *)
Definition trim (s : string) : string :=
  String.rev (trimStart (String.rev (trimStart s))).

(** [s.split(c)] for a one-character separator. *)
Fixpoint split (c : ascii) (s : string) : list string :=
  match s with
  | EmptyString => [EmptyString]
  | String a s' =>
      if Ascii.eqb a c then EmptyString :: split c s'
      else match split c s' with
           | [] => [String a EmptyString]
           | word :: words => String a word :: words
           end
  end.

(** [s.includes(p)]: some position of [s] starts an occurrence of [p]. *)
Fixpoint includes (p s : string) : bool :=
  startsWith p s ||
  match s with
  | EmptyString => false
  | String _ s' => includes p s'
  end.

(** [s.replace(p, r)] for a string pattern [p] and a replacement [r] without
    [$]: only the leftmost occurrence of [p] is replaced; [s] is returned
    unchanged when there is none. *)
Fixpoint replace (p r s : string) : string :=
  if startsWith p s then r +:+ slice (String.length p) s
  else match s with
       | EmptyString => EmptyString
       | String c s' => String c (replace p r s')
       end.

End JsString.

(** ** [WebScraperDataProvider.normalizeUrl] *)

Definition normalizeUrl (url : string) : string :=
  if JsString.includes "//www." url
  then JsString.replace "//www." "//" url
  else url.

(** ** JavaScript values, errors and exceptions *)

(** A thrown error object, with the four things the scrapers read from it:
    [e.code], [e.message], [e.response?.status] and [String(e)].
    [None] stands for [undefined].  Whatever is thrown is taken to be such an
    object; calls of [Logger] are left out throughout. *)
Record JsError := mkJsError {
  err_code : option string;
  err_message : option string;
  err_response_status : option Z;
  err_toString : string
}.

#[warnings="-register-all"]
Inductive JsVal :=
| JUndefined
| JNull
| JBool (b : bool)
| JNum (n : Z)
| JStr (s : string)
| JArr (items : list JsVal)
| JObj (fields : list (string * JsVal))
| JErr (e : JsError).

(** Truthiness, as tested by [if (v)], [v ? a : b] and [v || w]. *)
Definition truthy (v : JsVal) : bool :=
  match v with
  | JUndefined | JNull => false
  | JBool b => b
  | JNum n => negb (n =? 0)
  | JStr s => negb (String.eqb s "")
  | JArr _ | JObj _ | JErr _ => true
  end.

(** [v || w] *)
Definition jsOr (v w : JsVal) : JsVal := if truthy v then v else w.

(** [v ?? w] *)
Definition nullish (v w : JsVal) : JsVal :=
  match v with
  | JUndefined | JNull => w
  | _ => v
  end.

Definition ofOptString (o : option string) : JsVal :=
  match o with Some s => JStr s | None => JUndefined end.

Definition ofOptNum (o : option Z) : JsVal :=
  match o with Some n => JNum n | None => JUndefined end.

Fixpoint assoc (k : string) (fields : list (string * JsVal)) : JsVal :=
  match fields with
  | [] => JUndefined
  | (k', v) :: rest => if String.eqb k k' then v else assoc k rest
  end.

(** [v?.k] for a key [k] that no prototype defines: [undefined] on
    [undefined], [null] and on every primitive (a string has no own property
    [pageError]), the field on an object. *)
Definition optGet (v : JsVal) (k : string) : JsVal :=
  match v with
  | JObj fields => assoc k fields
  | _ => JUndefined
  end.

(** A computation that returns or throws. *)
Inductive Result (A : Type) :=
| Ok (a : A)
| Throw (e : JsError).
Arguments Ok {A} a.
Arguments Throw {A} e.

#[global] Instance Result_bind : MBind Result := fun A B k m =>
  match m with
  | Ok a => k a
  | Throw e => Throw e
  end.

#[global] Instance Result_ret : MRet Result := fun A a => Ok a.

(** [try { body } catch (e) { handler(e) }] *)
Definition tryCatch {A} (body : Result A) (handler : JsError -> Result A) : Result A :=
  match body with
  | Ok a => Ok a
  | Throw e => handler e
  end.

Definition TypeError (msg : string) : JsError :=
  {| err_code := None; err_message := Some msg;
     err_response_status := None; err_toString := "TypeError: " +:+ msg |}.

(** [v.k] (no optional chaining): reading a property of [undefined] or [null]
    throws a [TypeError]. *)
Definition get (v : JsVal) (k : string) : Result JsVal :=
  match v with
  | JUndefined => Throw (TypeError ("Cannot read properties of undefined (reading '" +:+ k +:+ "')"))
  | JNull => Throw (TypeError ("Cannot read properties of null (reading '" +:+ k +:+ "')"))
  | _ => Ok (optGet v k)
  end.

(** ** The fetch clients *)

(** What both scrapers resolve to: [{ content, pageStatusCode, pageError }]. *)
Record ScrapeResult := mkScrapeResult {
  content : JsVal;
  pageStatusCode : JsVal;
  pageError : JsVal
}.

(** An axios response, reduced to the fields read.  Both clients pass
    [transformResponse: [(data) => data]], so [data] is the raw body. *)
Record AxiosResponse := mkAxiosResponse {
  status : Z;
  statusText : string;
  data : JsVal
}.

(** The [catch (error)] block shared by both scrapers:
    [ECONNABORTED] becomes ["Request timed out"], anything else keeps
    [error.message || error]. *)
Definition catchMessage (error : JsError) : JsVal :=
  if decide (err_code error = Some "ECONNABORTED")
  then JStr "Request timed out"
  else jsOr (ofOptString (err_message error)) (JErr error).

Section Fetch.
(** [axios.get(url, ...)]: resolves with a response or rejects. *)
Variable axios_get : string -> Result AxiosResponse.

Definition scrapeWithFetch (url : string) : Result ScrapeResult :=
  tryCatch
    (response ← axios_get url;
     if negb (status response =? 200)
     then Ok {| content := JStr "";
                pageStatusCode := JNum (status response);
                pageError := JStr (statusText response) |}
     else
       let text := data response in
       Ok {| content := text;
             pageStatusCode := JNum (status response);
             pageError := JNull |})
    (fun error =>
       Ok {| content := JStr "";
             pageStatusCode := JNull;
             pageError := catchMessage error |}).
End Fetch.

(** [textData.substring(0, 500)], evaluated for the debug log line: a
    [TypeError] unless [textData] is a string. *)
Definition substring500 (textData : JsVal) : Result string :=
  match textData with
  | JStr s => Ok (String.substring 0 500 s)
  | JUndefined => Throw (TypeError "Cannot read properties of undefined (reading 'substring')")
  | JNull => Throw (TypeError "Cannot read properties of null (reading 'substring')")
  | _ => Throw (TypeError "textData.substring is not a function")
  end.

(** The body posted to the rendering service. *)
Record Payload := mkPayload {
  payload_url : string;
  wait_after_load : JsVal;
  payload_headers : JsVal
}.

Section Playwright.
(** [generateRequestParams] (single_url.ts) and the rendering service are
    outside this module; so is [JSON.parse]. *)
Variable generateRequestParams : string -> Result JsVal.
Variable PLAYWRIGHT_MICROSERVICE_URL : JsVal.
(** [axios.post(serviceUrl, payload, { timeout: universalTimeout + waitParam, ... })];
    the timeout is a function of the payload's [wait_after_load]. *)
Variable axios_post : JsVal -> Payload -> Result AxiosResponse.
Variable JSON_parse : JsVal -> Result JsVal.

Definition scrapeWithPlaywright
    (url : string) (waitFor : Z) (headers : JsVal) : Result ScrapeResult :=
  tryCatch
    (reqParams ← generateRequestParams url;
     params ← get reqParams "params";
     let waitParam := nullish (optGet params "wait") (JNum waitFor) in
     let serviceUrl := PLAYWRIGHT_MICROSERVICE_URL in
     let payload :=
       {| payload_url := url; wait_after_load := waitParam; payload_headers := headers |} in
     match axios_post serviceUrl payload with
     | Throw axiosError =>
         (* inner [catch (axiosError)]: returns from the function *)
         let error_message :=
           jsOr (ofOptString (err_message axiosError)) (JStr (err_toString axiosError)) in
         Ok {| content := JStr "";
               pageStatusCode := jsOr (ofOptNum (err_response_status axiosError)) JNull;
               pageError := error_message |}
     | Ok response =>
         if negb (status response =? 200)
         then Ok {| content := JStr "";
                    pageStatusCode := optGet (data response) "pageStatusCode";
                    pageError := optGet (data response) "pageError" |}
         else
           let textData := data response in
           _ ← substring500 textData;
           tryCatch
             (data ← JSON_parse textData;
              html ← get data "content";
              code ← get data "pageStatusCode";
              err ← get data "pageError";
              Ok {| content := nullish html (JStr "");
                    pageStatusCode := code;
                    pageError := err |})
             (fun jsonError =>
                Ok {| content := JStr "";
                      pageStatusCode := JNull;
                      pageError := jsOr (ofOptString (err_message jsonError)) (JErr jsonError) |})
     end)
    (fun error =>
       Ok {| content := JStr "";
             pageStatusCode := JNull;
             pageError := catchMessage error |}).
End Playwright.

(** ** Option bags

    [pageOptions] and [crawlerOptions] are plain objects used as maps from
    option name to value; [None] is an [undefined] bag. *)

Abbreviation JsObject := (gmap string JsVal).

(** [o.k] on an object: [undefined] for an absent key. *)
Definition prop (o : JsObject) (k : string) : JsVal := default JUndefined (o !! k).

(** [o?.k] *)
Definition optProp (o : option JsObject) (k : string) : JsVal :=
  match o with
  | Some m => prop m k
  | None => JUndefined
  end.

(** [{ ...a, ...b }]: the properties of [a], overridden by those of [b];
    spreading [undefined] contributes nothing. *)
Definition spread (a b : option JsObject) : JsObject :=
  default ∅ b ∪ default ∅ a.

(** ** [startWebScraperPipeline] (runWebScraper.ts) *)

Inductive Mode := single_urls | sitemap_mode | crawl.

(** [job.data] *)
Record WebScraperOptions := mkWebScraperOptions {
  wso_url : string;
  wso_mode : Mode;
  wso_crawlerOptions : option JsObject;
  wso_pageOptions : option JsObject;
  wso_webhookUrls : JsVal;
  wso_webhookMetadata : JsVal;
  wso_team_id : string;
  wso_origin : JsVal;
  wso_is_scrape : JsVal;
  wso_crawl_id : JsVal;
  wso_sitemapped : JsVal;
  wso_v1 : JsVal
}.

Record Job := mkJob {
  job_id : string;
  job_data : WebScraperOptions;
  job_opts_priority : JsVal
}.

(** The argument of [runWebScraper], without its three callbacks. *)
Record RunWebScraperParams := mkRunWebScraperParams {
  rp_url : string;
  rp_mode : Mode;
  rp_crawlerOptions : option JsObject;
  rp_pageOptions : JsObject;
  rp_webhookUrls : JsVal;
  rp_webhookMetadata : JsVal;
  rp_team_id : string;
  rp_bull_job_id : string;
  rp_priority : JsVal;
  rp_is_scrape : JsVal;
  rp_crawl_id : JsVal
}.

(** What [startWebScraperPipeline] hands to [runWebScraper]. *)
Definition startWebScraperPipeline (job : Job) : RunWebScraperParams :=
  let d := job_data job in
  {| rp_url := wso_url d;
     rp_mode := wso_mode d;
     rp_crawlerOptions := wso_crawlerOptions d;
     rp_pageOptions :=
       spread (wso_pageOptions d)
              (Some (if truthy (wso_crawl_id d)
                     then {[ "includeRawHtml" := JBool true ]}
                     else ∅));
     rp_webhookUrls := wso_webhookUrls d;
     rp_webhookMetadata := wso_webhookMetadata d;
     rp_team_id := wso_team_id d;
     rp_bull_job_id := job_id job;
     rp_priority := job_opts_priority job;
     rp_is_scrape := nullish (wso_is_scrape d) (JBool false);
     rp_crawl_id := wso_crawl_id d |}.

(** ** [WebScraperDataProvider] (scraper/WebScraper/index.ts) *)

Record Metadata := mkMetadata {
  sourceURL : string;
  md_pageStatusCode : JsVal;
  md_pageError : JsVal;
  md_sitemap : JsVal
}.

Record Document := mkDocument {
  doc_content : string;
  doc_html : JsVal;
  doc_markdown : JsVal;
  metadata : Metadata
}.

Record SitemapEntry := mkSitemapEntry {
  loc : string;
  changefreq : JsVal;
  sm_priority : JsVal;
  lastmod : JsVal
}.

(** The argument of [setOptions], reduced to what [processLinks] depends on. *)
Record ProviderOptions := mkProviderOptions {
  po_urls : option (list string);
  po_mode : Mode;
  po_crawlerOptions : option JsObject;
  po_pageOptions : option JsObject
}.

(** The provider's fields that [processLinks] reads. *)
Record Provider := mkProvider {
  urls : list string;
  mode : Mode;
  pageOptions : JsObject;
  replaceAllPathsWithAbsolutePaths : JsVal
}.

Definition Error (msg : string) : JsError :=
  {| err_code := None; err_message := Some msg;
     err_response_status := None; err_toString := "Error: " +:+ msg |}.

(** [this.pageOptions = { k: options.pageOptions?.k ?? default, ... }] *)
Definition pageOptionDefaults : list (string * JsVal) :=
  [ ("replaceAllPathsWithAbsolutePaths", JBool true);
    ("parsePDF", JBool true);
    ("onlyIncludeTags", JArr []);
    ("removeTags", JArr []);
    ("includeMarkdown", JBool true);
    ("includeRawHtml", JBool false);
    ("waitFor", JUndefined);
    ("headers", JUndefined);
    ("includeLinks", JBool true);
    ("fullPageScreenshot", JBool false);
    ("screenshot", JBool false);
    ("useFastMode", JBool false);
    ("disableJsDom", JBool false);
    ("atsv", JBool false) ].

Definition setOptions (options : ProviderOptions) : Result Provider :=
  match po_urls options with
  | None => Throw (Error "Urls are required")
  | Some us =>
      Ok {| urls :=
              map (fun url =>
                     if JsString.startsWith "http" (JsString.trim url)
                     then url else "https://" +:+ url) us;
            mode := po_mode options;
            pageOptions :=
              list_to_map
                (map (fun '(k, d) => (k, nullish (optProp (po_pageOptions options) k) d))
                     pageOptionDefaults);
            replaceAllPathsWithAbsolutePaths :=
              nullish (optProp (po_crawlerOptions options) "replaceAllPathsWithAbsolutePaths")
                (nullish (optProp (po_pageOptions options) "replaceAllPathsWithAbsolutePaths")
                   (JBool false)) |}
  end.

Definition Mode_eqb (a b : Mode) : bool :=
  match a, b with
  | single_urls, single_urls | sitemap_mode, sitemap_mode | crawl, crawl => true
  | _, _ => false
  end.

Definition set_sitemap (v : JsVal) (d : Document) : Document :=
  {| doc_content := doc_content d; doc_html := doc_html d; doc_markdown := doc_markdown d;
     metadata := {| sourceURL := sourceURL (metadata d);
                    md_pageStatusCode := md_pageStatusCode (metadata d);
                    md_pageError := md_pageError (metadata d);
                    md_sitemap := v |} |}.

(** [runWebScraper] (runWebScraper.ts): the argument of its call of
    [provider.setOptions], in either mode. *)
Definition runWebScraper_options (p : RunWebScraperParams) : ProviderOptions :=
  {| po_urls :=
       Some (if Mode_eqb (rp_mode p) crawl
             then [rp_url p]
             else JsString.split "," (rp_url p));
     po_mode := rp_mode p;
     po_crawlerOptions := rp_crawlerOptions p;
     po_pageOptions := Some (rp_pageOptions p) |}.

Section DataProvider.
(** Collaborators defined in other modules: [scrapeSingleUrl] (single_url.ts),
    [fetchSitemapData] (sitemap.ts), the two rewriters of
    utils/replacePaths.ts, and the built-in [Number]. *)
Variable scrapeSingleUrl : string -> JsObject -> JsVal -> Document.
Variable fetchSitemapData : JsVal -> JsVal -> Result (option (list SitemapEntry)).
Variable Number : JsVal -> JsVal.
Variable replacePathsWithAbsolutePaths : list Document -> list Document.
Variable replaceImgPathsWithAbsolutePaths : list Document -> list Document.

Variable this : Provider.

(** Results are stored by index, so batching by [concurrentRequests] does
    not change the order; no result is [null]. *)
Definition convertUrlsToDocuments
    (us : list string) (allHtmls : option (list JsVal)) : list Document :=
  imap (fun i url =>
          let existingHTML :=
            match allHtmls with
            | Some hs => default JUndefined (hs !! i)
            | None => JStr ""
            end in
          scrapeSingleUrl url (pageOptions this) existingHTML) us.

Definition sitemapDocData (e : SitemapEntry) : list (string * JsVal) :=
  (if truthy (changefreq e) then [("changefreq", changefreq e)] else []) ++
  (if truthy (sm_priority e) then [("priority", Number (sm_priority e))] else []) ++
  (if truthy (lastmod e) then [("lastmod", lastmod e)] else []).

Definition findInSitemap (entries : list SitemapEntry) (url : string) : option SitemapEntry :=
  List.find (fun e => String.eqb (normalizeUrl (loc e)) (normalizeUrl url)) entries.

Definition getSitemapData (baseUrl : JsVal) (documents : list Document)
    : Result (list Document) :=
  sitemapData ← fetchSitemapData baseUrl JUndefined;
  match sitemapData with
  | Some entries =>
      Ok (map (fun d =>
                 match findInSitemap entries (sourceURL (metadata d)) with
                 | Some e =>
                     if negb (Nat.eqb (length (sitemapDocData e)) 0)
                     then set_sitemap (JObj (sitemapDocData e)) d
                     else d
                 | None => d
                 end) documents)
  | None => Ok documents
  end.

Definition getSitemapDataForSingleUrl (baseUrl : JsVal) (url : string) (timeout : JsVal)
    : Result JsVal :=
  sitemapData ← fetchSitemapData baseUrl timeout;
  match sitemapData with
  | Some entries =>
      match findInSitemap entries url with
      | Some e =>
          if negb (Nat.eqb (length (sitemapDocData e)) 0)
          then Ok (JObj (sitemapDocData e))
          else Ok JNull
      | None => Ok JNull
      end
  | None => Ok JNull
  end.

Definition applyPathReplacements (documents : list Document) : list Document :=
  let documents :=
    if truthy (replaceAllPathsWithAbsolutePaths this)
    then replacePathsWithAbsolutePaths documents
    else documents in
  replaceImgPathsWithAbsolutePaths documents.

(** The documents [processLinks] has built when it reaches the
    [if (this.pageOptions.includeMarkdown)] test: fetched and with sitemap
    metadata attached. *)
Definition builtDocuments (links : list string) (allHtmls : option (list JsVal))
    : Result (list Document) :=
  let pdfLinks := List.filter (JsString.endsWith ".pdf") links in
  let docLinks :=
    List.filter (fun link => JsString.endsWith ".doc" link
                             || JsString.endsWith ".docx" link) links in
  let links :=
    List.filter (fun link => negb (existsb (String.eqb link) pdfLinks)
                             && negb (existsb (String.eqb link) docLinks)) links in
  let baseUrl := ofOptString (head (urls this)) in
  let documents := convertUrlsToDocuments links allHtmls in
  sitemapData ←
    (match links with
     | link0 :: _ =>
         if Mode_eqb (mode this) single_urls
         then tryCatch (getSitemapDataForSingleUrl baseUrl link0 (JNum 1500))
                       (fun _ => Ok JNull)
         else Ok JNull
     | [] => Ok JNull
     end);
  match documents with
  | d0 :: rest =>
      if Mode_eqb (mode this) single_urls
      then Ok (set_sitemap (nullish sitemapData JUndefined) d0 :: rest)
      else getSitemapData baseUrl documents
  | [] => getSitemapData baseUrl documents
  end.

Definition processLinks (links : list string) (allHtmls : option (list JsVal))
    : Result (list Document) :=
  documents ← builtDocuments links allHtmls;
  if truthy (prop (pageOptions this) "includeMarkdown")
  then Ok (applyPathReplacements documents)
  else Ok documents.

End DataProvider.

(** ** The crawl controller ([POST /v1/crawl]) *)

(** [req.body] after [crawlRequestSchema.parse]. *)
Record CrawlRequest := mkCrawlRequest {
  body_url : string;
  body_scrapeOptions : JsVal;
  body_webhookUrls : JsVal;
  body_webhookMetadata : JsVal;
  body_rest : JsObject
}.

Record Request := mkRequest {
  req_body : CrawlRequest;
  auth_team_id : string;
  auth_plan : string;
  req_protocol : string;
  (** [req.get("host")]; [None] is [undefined] *)
  req_host : option string
}.

Record StoredCrawl := mkStoredCrawl {
  originUrl : string;
  sc_crawlerOptions : JsObject;
  sc_pageOptions : JsObject;
  sc_team_id : string;
  createdAt : Z;
  sc_plan : string;
  robots : JsVal
}.

(** An element of the array [crawler.tryGetSitemap()] resolves to. *)
Record SitemapLink := mkSitemapLink {
  link_url : string;
  link_html : JsVal
}.

(** [{ jobId, priority }] *)
Record JobOpts := mkJobOpts {
  opt_jobId : string;
  opt_priority : Z
}.

(** [{ priority }], the options literal of the seed job. *)
Record AddOpts := mkAddOpts {
  add_priority : Z
}.

(** [{ name, data, opts }], the shape [addBulk] takes. *)
Record QueueJob := mkQueueJob {
  job_name : string;
  job_payload : WebScraperOptions;
  job_opts : JobOpts
}.

Inductive CrawlResponse :=
| ErrorResponse (error : string)        (* { success: false, error } *)
| SuccessResponse (id url : string).    (* { success: true, id, url } *)

(** [res.status(code).json(body)] *)
Record HttpResponse := mkHttpResponse {
  res_status : Z;
  res_json : CrawlResponse
}.

(** Everything the controller obtains from outside its own body. *)
Record World := mkWorld {
  (** the [n]-th call of [uuidv4()] in one run of the controller *)
  uuidv4 : nat -> string;
  Date_now : Z;
  legacyCrawlerOptions : CrawlRequest -> JsObject;
  legacyScrapeOptions : JsVal -> JsObject;
  (** [new RegExp(x)]: [Some m] when it throws an error [e] with [e.message = m] *)
  RegExp_error : JsVal -> option string;
  (** [crawlToCrawler(id, sc).getRobotsTxt()] *)
  getRobotsTxt : string -> StoredCrawl -> Result JsVal;
  (** [crawlToCrawler(id, sc).tryGetSitemap()]: [None] is [null] *)
  tryGetSitemap : string -> StoredCrawl -> option (list SitemapLink);
  (** [getJobPriority({ plan, team_id, basePriority })] *)
  getJobPriority : string -> string -> Z -> Z;
  (** [process.env.ENV] *)
  process_env_ENV : option string
}.

(** The awaited calls to the KV store, the priority policy and the queue, in
    the order the controller makes them. *)
Inductive Call :=
| SaveCrawl (id : string) (sc : StoredCrawl)
| GetJobPriority (plan team_id : string) (basePriority : Z)
| LockURL (id : string) (sc : StoredCrawl) (url : string)
| LockURLs (id : string) (urls : list string)
| AddCrawlJob (id : string) (job_id : string)
| AddCrawlJobs (id : string) (job_ids : list string)
| AddBulk (jobs : list QueueJob)
| AddScrapeJobRaw (data : WebScraperOptions) (options : AddOpts)
    (jobId : string) (jobPriority : Z).

(** The first pattern of the array on which [new RegExp(x)] throws. *)
Fixpoint firstRegExpError (w : World) (xs : list JsVal) : option string :=
  match xs with
  | [] => None
  | x :: rest =>
      match RegExp_error w x with
      | Some msg => Some msg
      | None => firstRegExpError w rest
      end
  end.

(** [if (Array.isArray(field)) { for (const x of field) { new RegExp(x) } }] *)
Definition validatePatterns (w : World) (field : JsVal) : option string :=
  match field with
  | JArr xs => firstRegExpError w xs
  | _ => None
  end.

(** [`${v}`] for a string or [undefined]. *)
Definition template (v : option string) : string :=
  match v with Some s => s | None => "undefined" end.

Section Controller.
Variable w : World.
Variable req : Request.

Let body := req_body req.
Let id := uuidv4 w 0.
Let crawlerOptions := legacyCrawlerOptions w body.
Let pageOptions := legacyScrapeOptions w (body_scrapeOptions body).

Definition storedCrawl : StoredCrawl :=
  let sc :=
    {| originUrl := body_url body;
       sc_crawlerOptions := crawlerOptions;
       sc_pageOptions := pageOptions;
       sc_team_id := auth_team_id req;
       createdAt := Date_now w;
       sc_plan := auth_plan req;
       robots := JUndefined |} in
  match getRobotsTxt w id sc with
  | Ok r =>
      {| originUrl := originUrl sc;
         sc_crawlerOptions := sc_crawlerOptions sc;
         sc_pageOptions := sc_pageOptions sc;
         sc_team_id := sc_team_id sc;
         createdAt := createdAt sc;
         sc_plan := sc_plan sc;
         robots := r |}
  | Throw _ => sc
  end.

(** [sc.crawlerOptions.ignoreSitemap ?? true ? null : await crawler.tryGetSitemap()] *)
Definition fetchedSitemap : option (list SitemapLink) :=
  let sc := storedCrawl in
  if truthy (nullish (prop (sc_crawlerOptions sc) "ignoreSitemap") (JBool true))
  then None
  else tryGetSitemap w id sc.

(** The local [jobPriority] of the sitemap branch. *)
Definition jobPriority (sitemap : list SitemapLink) : Z :=
  if (1000 <? Z.of_nat (length sitemap))
  then getJobPriority w (auth_plan req) (auth_team_id req) 21
  else 20.

Definition jobData (url : string) (sitemapped : JsVal) : WebScraperOptions :=
  {| wso_url := url;
     wso_mode := single_urls;
     wso_crawlerOptions := Some crawlerOptions;
     wso_pageOptions := Some pageOptions;
     wso_webhookUrls := body_webhookUrls body;
     wso_webhookMetadata := body_webhookMetadata body;
     wso_team_id := auth_team_id req;
     wso_origin := JStr "api";
     wso_is_scrape := JUndefined;
     wso_crawl_id := JStr id;
     wso_sitemapped := sitemapped;
     wso_v1 := JBool true |}.

(** [sitemap.map((x) => { ... })]; the [i]-th element takes the
    [(i+1)]-th uuid, the first one being the crawl id. *)
Definition sitemapJobs (sitemap : list SitemapLink) : list QueueJob :=
  imap (fun i x =>
          let url := link_url x in
          let uuid := uuidv4 w (S i) in
          {| job_name := uuid;
             job_payload := jobData url (JBool true);
             job_opts := {| opt_jobId := uuid; opt_priority := 20 |} |})
       sitemap.

Definition sitemapCalls (sitemap : list SitemapLink) : list Call :=
  let jobPriorityCalls :=
    if (1000 <? Z.of_nat (length sitemap))
    then [GetJobPriority (auth_plan req) (auth_team_id req) 21]
    else [] in
  let jobPriority := jobPriority sitemap in
  let jobs := sitemapJobs sitemap in
  jobPriorityCalls ++
  [ LockURLs id (map (fun x => wso_url (job_payload x)) jobs);
    AddCrawlJobs id (map (fun x => opt_jobId (job_opts x)) jobs);
    AddBulk jobs ].

Definition seedCalls : list Call :=
  let jobId := uuidv4 w 1 in
  [ LockURL id storedCrawl (body_url body);
    AddScrapeJobRaw (jobData (body_url body) JUndefined)
                    {| add_priority := 15 |} jobId 10;
    (* [job.id] of the job the queue returns is the [jobId] it was given *)
    AddCrawlJob id jobId ].

(** The two validation loops: the message of the first pattern of
    [includes], then of [excludes], that does not compile. *)
Definition validationError : option string :=
  match validatePatterns w (prop crawlerOptions "includes") with
  | Some message => Some message
  | None => validatePatterns w (prop crawlerOptions "excludes")
  end.

Definition crawlController : HttpResponse * list Call :=
  match validationError with
  | Some message =>
      (* [return res.status(400).json({ success: false, error: e.message })] *)
      ({| res_status := 400; res_json := ErrorResponse message |}, [])
  | None =>
      let sc := storedCrawl in
      let branch :=
        match fetchedSitemap with
        | Some (x :: rest) => sitemapCalls (x :: rest)
        | Some [] | None => seedCalls
        end in
      let protocol :=
        if decide (process_env_ENV w = Some "local") then req_protocol req else "https" in
      ({| res_status := 200;
          res_json :=
            SuccessResponse id
              (protocol +:+ "://" +:+ template (req_host req) +:+ "/v1/crawl/" +:+ id) |},
       SaveCrawl id sc :: branch)
  end.

End Controller.

(** ** The shared store: KV store and queue *)

Record Store := mkStore {
  (** [crawl:<id>] *)
  crawls : gmap string StoredCrawl;
  (** [crawl:<id>:locks], the URL lock set of each crawl *)
  locks : gmap string (gset string);
  (** [crawl:<id>:jobs], the job membership set of each crawl *)
  crawl_jobs : gmap string (gset string);
  (** the scrape queue, oldest first *)
  queue : list QueueJob
}.

Definition lockSet (s : Store) (id : string) : gset string := default ∅ (locks s !! id).
Definition jobSet (s : Store) (id : string) : gset string := default ∅ (crawl_jobs s !! id).

Definition addLocks (id : string) (us : gset string) (s : Store) : Store :=
  {| crawls := crawls s;
     locks := <[id := us ∪ lockSet s id]> (locks s);
     crawl_jobs := crawl_jobs s;
     queue := queue s |}.

Definition addMembers (id : string) (js : gset string) (s : Store) : Store :=
  {| crawls := crawls s;
     locks := locks s;
     crawl_jobs := <[id := js ∪ jobSet s id]> (crawl_jobs s);
     queue := queue s |}.

Definition enqueue (js : list QueueJob) (s : Store) : Store :=
  {| crawls := crawls s;
     locks := locks s;
     crawl_jobs := crawl_jobs s;
     queue := queue s ++ js |}.

(** Modelled from the spec: [addScrapeJobRaw] (services/queue-jobs) and the
    queue behind [getScrapeQueue()] are missing from the sources at hand.
    Following the queue contract [enqueue(job, options)] / [enqueueBulk(jobs)],
    [addBulk(jobs)] enqueues [jobs] as they are and
    [addScrapeJobRaw(data, options, jobId, _)] enqueues one job named [jobId]
    with the priority of [options]; the job it returns has [id = jobId].  The
    specification does not say what the fourth argument is for, and it is
    left unused here. *)
Definition enqueued (c : Call) : list QueueJob :=
  match c with
  | AddBulk jobs => jobs
  | AddScrapeJobRaw data options jobId _ =>
      [ {| job_name := jobId;
           job_payload := data;
           job_opts := {| opt_jobId := jobId; opt_priority := add_priority options |} |} ]
  | _ => []
  end.

(** Modelled from the spec: the helpers of lib/crawl-redis ([saveCrawl],
    [lockURL], [lockURLs], [addCrawlJob], [addCrawlJobs]) are missing from the
    sources at hand.  Following the specification's persisted state layout:
    saving a crawl writes [crawl:<id>]; locking inserts the URL(s) into
    [crawl:<id>:locks], from which nothing is ever removed; adding crawl jobs
    inserts the job id(s) into [crawl:<id>:jobs]; enqueueing appends to the
    queue; the priority policy only reads. *)
Definition step (c : Call) (s : Store) : Store :=
  match c with
  | SaveCrawl id sc =>
      {| crawls := <[id := sc]> (crawls s);
         locks := locks s;
         crawl_jobs := crawl_jobs s;
         queue := queue s |}
  | GetJobPriority _ _ _ => s
  | LockURL id _ url => addLocks id {[ url ]} s
  | LockURLs id us => addLocks id (list_to_set us) s
  | AddCrawlJob id j => addMembers id {[ j ]} s
  | AddCrawlJobs id js => addMembers id (list_to_set js) s
  | AddBulk _ | AddScrapeJobRaw _ _ _ _ => enqueue (enqueued c) s
  end.

Definition run (calls : list Call) (s : Store) : Store :=
  fold_left (fun s c => step c s) calls s.

(** The crawl a queued job belongs to ([data.crawl_id]). *)
Definition crawlOf (j : QueueJob) : string :=
  match wso_crawl_id (job_payload j) with
  | JStr id => id
  | _ => ""
  end.

Definition locked (s : Store) (j : QueueJob) : Prop :=
  wso_url (job_payload j) ∈ lockSet s (crawlOf j).

(** Every job a call of the trace enqueues finds its URL in the lock set of
    its crawl in the store as it is when that call is made. *)
Fixpoint lockedAtEnqueue (s : Store) (calls : list Call) : Prop :=
  match calls with
  | [] => True
  | c :: rest => Forall (locked s) (enqueued c) /\ lockedAtEnqueue (step c s) rest
  end.

(** ** More of [WebScraperDataProvider] and [runWebScraper] *)

(** [mergeNewDocuments]: each new document is pushed onto the existing array
    unless a document already there, an earlier new one included, has the
    same normalised source URL. *)
Definition sameSource (d doc : Document) : bool :=
  String.eqb (normalizeUrl (sourceURL (metadata d)))
             (normalizeUrl (sourceURL (metadata doc))).

Definition mergeNewDocuments (existingDocuments newDocuments : list Document)
    : list Document :=
  fold_left
    (fun existing doc =>
       if negb (existsb (fun d => sameSource d doc) existing)
       then (existing ++ [doc])%list
       else existing)
    newDocuments existingDocuments.

(** [validateInitialUrl]: reading [this.urls[0].trim()] of an empty array is a
    [TypeError]. *)
Definition validateInitialUrl (this : Provider) : Result unit :=
  match urls this with
  | [] => Throw (TypeError "Cannot read properties of undefined (reading 'trim')")
  | url0 :: _ =>
      if String.eqb (JsString.trim url0) ""
      then Throw (Error "Url is required")
      else Ok tt
  end.




Section Modes.
Variable scrapeSingleUrl : string -> JsObject -> JsVal -> Document.
Variable fetchSitemapData : JsVal -> JsVal -> Result (option (list SitemapEntry)).
Variable Number : JsVal -> JsVal.
Variable replacePathsWithAbsolutePaths : list Document -> list Document.
Variable replaceImgPathsWithAbsolutePaths : list Document -> list Document.
(** [handleCrawlMode] runs a [WebCrawler] (crawler.ts) and [handleSitemapMode]
    reads a sitemap (sitemap.ts); [processDocumentsWithCache] reads the cache
    (services/redis).  None of the three modules is at hand. *)
Variable handleCrawlMode : Provider -> Result (list Document).
Variable handleSitemapMode : Provider -> Result (list Document).
Variable processDocumentsWithCache : Provider -> Result (list Document).





End Modes.

(** ** Queue and worker together *)

(** All the jobs a trace of calls enqueues, in order. *)
Definition enqueuedAll (calls : list Call) : list QueueJob :=
  flat_map enqueued calls.

Definition isGetJobPriority (c : Call) : bool :=
  match c with
  | GetJobPriority _ _ _ => true
  | _ => false
  end.

(** The job object a worker receives for a queued [{ name, data, opts }]:
    [job.id] is [opts.jobId], [job.data] is [data], [job.opts] is [opts]. *)
Definition workerJob (q : QueueJob) : Job :=
  {| job_id := opt_jobId (job_opts q);
     job_data := job_payload q;
     job_opts_priority := JNum (opt_priority (job_opts q)) |}.

(** The [(crawl id, URL)] pairs a call locks and the [(crawl id, job id)]
    pairs it adds to a membership set. *)
Definition lockCalls (c : Call) : list (string * string) :=
  match c with
  | LockURL id _ url => [(id, url)]
  | LockURLs id us => map (pair id) us
  | _ => []
  end.

Definition memberCalls (c : Call) : list (string * string) :=
  match c with
  | AddCrawlJob id j => [(id, j)]
  | AddCrawlJobs id js => map (pair id) js
  | _ => []
  end.

(** The second components of the pairs whose first component is [id]. *)
Definition under (id : string) (pairs : list (string * string)) : list string :=
  map snd (List.filter (fun p => String.eqb (fst p) id) pairs).

(** ** Auxiliary notions for the statements *)

(** Every character of [s] is white space. *)
Fixpoint allSpaces (s : string) : bool :=
  match s with
  | EmptyString => true
  | String c s' => Ascii.is_space c && allSpaces s'
  end.

(** [c] does not occur in [s]. *)
Fixpoint lacks (c : ascii) (s : string) : bool :=
  match s with
  | EmptyString => true
  | String a s' => negb (Ascii.eqb a c) && lacks c s'
  end.


(** The key under which documents are compared: the normalised source URL. *)
Definition sourceKey (d : Document) : string :=
  normalizeUrl (sourceURL (metadata d)).

(** What [getSitemapData] leaves alone in a document: all but
    [metadata.sitemap]. *)
Definition withoutSitemap (d : Document) : Document := set_sitemap JUndefined d.

(** ** Concrete inputs *)

(** The error axios rejects with when its timeout elapses. *)
Definition timeoutError : JsError :=
  {| err_code := Some "ECONNABORTED";
     err_message := Some "timeout of 15000ms exceeded";
     err_response_status := None;
     err_toString := "AxiosError: timeout of 15000ms exceeded" |}.

(** The error axios rejects with on a 503 of the rendering service. *)
Definition unavailableError : JsError :=
  {| err_code := Some "ERR_BAD_RESPONSE";
     err_message := Some "Request failed with status code 503";
     err_response_status := Some 503;
     err_toString := "AxiosError: Request failed with status code 503" |}.

(** [generateRequestParams] resolving to an object without [params]. *)
Definition noRequestParams : string -> Result JsVal := fun _ => Ok (JObj []).

(** A rendering service that answers [201 Created] with the given body. *)
Definition created (body : string) : JsVal -> Payload -> Result AxiosResponse :=
  fun _ _ => Ok {| status := 201; statusText := "Created"; data := JStr body |}.

(** A page with one site-relative image, as [scrapeSingleUrl] could build it. *)
Definition examplePage (url : string) (_ : JsObject) (_ : JsVal) : Document :=
  {| doc_content := "![logo](/logo.png)";
     doc_html := JUndefined;
     doc_markdown := JStr "![logo](/logo.png)";
     metadata := {| sourceURL := url; md_pageStatusCode := JNum 200;
                    md_pageError := JUndefined; md_sitemap := JUndefined |} |}.

(** A rewriter that makes the first site-relative link of each document
    absolute against the document's own URL. *)
Definition absolutize (documents : list Document) : list Document :=
  map (fun d =>
         {| doc_content :=
              JsString.replace "](/" ("](" +:+ sourceURL (metadata d) +:+ "/") (doc_content d);
            doc_html := doc_html d;
            doc_markdown := doc_markdown d;
            metadata := metadata d |}) documents.

Definition noSitemapData : JsVal -> JsVal -> Result (option (list SitemapEntry)) :=
  fun _ _ => Ok None.

(** [{ includeMarkdown: false, replaceAllPathsWithAbsolutePaths: true }] for
    one URL in [single_urls] mode. *)
Definition htmlOnlyOptions : ProviderOptions :=
  {| po_urls := Some ["https://ex.com"];
     po_mode := single_urls;
     po_crawlerOptions := None;
     po_pageOptions :=
       Some (<["includeMarkdown" := JBool false]>
               {["replaceAllPathsWithAbsolutePaths" := JBool true]}) |}.

(** The same with markdown left at its default. *)
Definition markdownOptions : ProviderOptions :=
  {| po_urls := Some ["https://ex.com"];
     po_mode := single_urls;
     po_crawlerOptions := None;
     po_pageOptions := Some {["replaceAllPathsWithAbsolutePaths" := JBool true]} |}.

(** The provider [setOptions] leaves behind; a provider without URLs when it
    throws. *)
Definition providerOf (options : ProviderOptions) : Provider :=
  match setOptions options with
  | Ok this => this
  | Throw _ =>
      {| urls := []; mode := po_mode options; pageOptions := ∅;
         replaceAllPathsWithAbsolutePaths := JUndefined |}
  end.

Definition decimal (n : nat) : string := NilEmpty.string_of_uint (Nat.to_uint n).

(** A world in which [legacyCrawlerOptions] yields the given options, the
    sitemap fetch the given result, only the pattern ["("] fails to compile,
    robots.txt is unreachable and the priority policy returns its base. *)
Definition worldWith (crawlerOptions : JsObject) (sitemap : option (list SitemapLink)) : World :=
  {| uuidv4 := fun n => "uuid-" +:+ decimal n;
     Date_now := 1700000000000;
     legacyCrawlerOptions := fun _ => crawlerOptions;
     legacyScrapeOptions := fun _ => ∅;
     RegExp_error := fun x =>
       match x with
       | JStr s =>
           if String.eqb s "("
           then Some "Invalid regular expression: /(/: Unterminated group"
           else None
       | _ => None
       end;
     getRobotsTxt := fun _ _ => Throw (Error "connect ECONNREFUSED");
     tryGetSitemap := fun _ _ => sitemap;
     getJobPriority := fun _ _ basePriority => basePriority;
     process_env_ENV := None |}.

Definition exampleRequest : Request :=
  {| req_body := {| body_url := "https://ex.com/a";
                    body_scrapeOptions := JUndefined;
                    body_webhookUrls := JUndefined;
                    body_webhookMetadata := JUndefined;
                    body_rest := ∅ |};
     auth_team_id := "team-1";
     auth_plan := "growth";
     req_protocol := "http";
     req_host := Some "api.example.com" |}.

(** A sitemap of [n] pages. *)
Definition sitemapOf (n : nat) : list SitemapLink :=
  map (fun i => {| link_url := "https://ex.com/p" +:+ decimal i; link_html := JUndefined |})
      (seq 0 n).

(** [{ url: "https://ex.com/a" }]: the sitemap is ignored by default. *)
Definition seedWorld : World := worldWith ∅ None.

(** [{ ignoreSitemap: false }] and a sitemap of 1001 pages. *)
Definition largeSitemapWorld : World :=
  worldWith {["ignoreSitemap" := JBool false]} (Some (sitemapOf 1001)).

(** [{ includes: ["("] }] *)
Definition badIncludesWorld : World :=
  worldWith {["includes" := JArr [JStr "("]]} None.

Definition emptyStore : Store :=
  {| crawls := ∅; locks := ∅; crawl_jobs := ∅; queue := [] |}.

(** [{ ignoreSitemap: false }] and a sitemap of three pages. *)
Definition smallSitemapWorld : World :=
  worldWith {["ignoreSitemap" := JBool false]} (Some (sitemapOf 3)).

(** [{ ignoreSitemap: false }] and an unreachable sitemap. *)
Definition noSitemapWorld : World :=
  worldWith {["ignoreSitemap" := JBool false]} None.

(** A document scraped at [url]. *)
Definition pageAt (url : string) : Document := examplePage url ∅ JUndefined.

(** * Properties *)

(** ** Facts about the string primitives *)

Section JsStringFacts.
Import JsString.

Lemma append_cons (c : ascii) (a b : string) :
  String c a +:+ b = String c (a +:+ b).
Proof. reflexivity. Qed.

Lemma length_append (a b : string) :
  String.length (a +:+ b) = (String.length a + String.length b)%nat.
Proof.
  induction a as [|c a IH]; [reflexivity|].
  rewrite append_cons. simpl. now rewrite IH.
Qed.

Lemma startsWith_split (p s : string) :
  startsWith p s = true -> s = p +:+ slice (String.length p) s.
Proof.
  revert s; induction p as [|a p IH]; intros s H; simpl in *.
  - reflexivity.
  - destruct s as [|b s]; [discriminate|].
    destruct (Ascii.eqb a b) eqn:E; [|discriminate].
    apply Ascii.eqb_eq in E; subst b.
    rewrite append_cons. simpl. f_equal. now apply IH.
Qed.

Lemma startsWith_append (p s : string) : startsWith p (p +:+ s) = true.
Proof.
  induction p as [|a p IH]; [reflexivity|].
  rewrite append_cons. simpl. now rewrite Ascii.eqb_refl.
Qed.

Lemma startsWith_length (p s : string) :
  startsWith p s = true ->
  (String.length (slice (String.length p) s) + String.length p = String.length s)%nat.
Proof.
  intros H. apply startsWith_split in H.
  rewrite H at 2. rewrite length_append. lia.
Qed.

(** Replacing shortens (or lengthens) the string by exactly the difference
    between pattern and replacement, once, when the pattern occurs. *)
Lemma replace_length (p r s : string) :
  includes p s = true ->
  (String.length (replace p r s) + String.length p
   = String.length s + String.length r)%nat.
Proof.
  induction s as [|c s IH]; intros H.
  - cbn [includes] in H. rewrite orb_false_r in H.
    cbn [replace]. rewrite H, length_append.
    pose proof (startsWith_length _ _ H). lia.
  - cbn [includes] in H. cbn [replace].
    destruct (startsWith p (String c s)) eqn:E.
    + rewrite length_append.
      pose proof (startsWith_length _ _ E). lia.
    + rewrite orb_false_l in H. specialize (IH H).
      cbn [String.length]. lia.
Qed.

Lemma replace_absent (p r s : string) :
  includes p s = false -> replace p r s = s.
Proof.
  induction s as [|c s IH]; intros H.
  - cbn [includes replace] in *. rewrite orb_false_r in H. now rewrite H.
  - cbn [includes] in H. apply orb_false_iff in H as [H1 H2].
    cbn [replace]. rewrite H1. f_equal. now apply IH.
Qed.

(** The occurrence that [replace] rewrites is the leftmost one: nothing
    before it starts an occurrence. *)
Lemma replace_leftmost (p r s : string) :
  includes p s = true ->
  exists a b, s = a +:+ p +:+ b /\ replace p r s = a +:+ r +:+ b /\
    forall n, (n < String.length a)%nat -> startsWith p (slice n s) = false.
Proof.
  induction s as [|c s IH]; intros H.
  - cbn [includes] in H. rewrite orb_false_r in H.
    exists "", (slice (String.length p) ""). cbn [replace]. rewrite H.
    split; [now apply startsWith_split | split; [reflexivity | simpl; intros; lia]].
  - cbn [includes] in H. cbn [replace].
    destruct (startsWith p (String c s)) eqn:E.
    + exists "", (slice (String.length p) (String c s)).
      split; [now apply startsWith_split | split; [reflexivity | simpl; intros; lia]].
    + rewrite orb_false_l in H. destruct (IH H) as (a & b & Hs & Hr & Hl).
      exists (String c a), b. rewrite !append_cons, Hr, <- Hs.
      split; [reflexivity | split; [reflexivity|]].
      intros [|n] Hn; [exact E | simpl; apply Hl; simpl in Hn; lia].
Qed.

End JsStringFacts.

Example normalizeUrl_www :
  normalizeUrl "https://www.example.com/a" = "https://example.com/a".
Proof. reflexivity. Qed.

Example normalizeUrl_plain :
  normalizeUrl "https://example.com/a" = "https://example.com/a".
Proof. reflexivity. Qed.

(** C4 (as stated, refuted).  [normalizeUrl] is not idempotent: removing the
    first ["//www."] of ["https://www.www.example.com"] uncovers another one,
    which a second pass removes. *)
Lemma normalizeUrl_not_idempotent :
  normalizeUrl (normalizeUrl "https://www.www.example.com")
  <> normalizeUrl "https://www.www.example.com".
Proof. vm_compute. discriminate. Qed.

(** C4 (amended).  A second normalisation changes the result exactly when the
    first result still contains ["//www."]: [normalizeUrl (normalizeUrl u)]
    equals [normalizeUrl u] if and only if [normalizeUrl u] has no occurrence
    of ["//www."]. *)
Theorem normalizeUrl_idempotent_iff (u : string) :
  String.eqb (normalizeUrl (normalizeUrl u)) (normalizeUrl u)
  = negb (JsString.includes "//www." (normalizeUrl u)).
Proof.
  set (v := normalizeUrl u).
  unfold normalizeUrl at 1.
  destruct (JsString.includes "//www." v) eqn:E; simpl.
  - apply String.eqb_neq. intros Heq.
    pose proof (replace_length "//www." "//" v E) as L.
    rewrite Heq in L. simpl in L. lia.
  - apply String.eqb_refl.
Qed.

(** ** The fetch clients *)

Section ScraperFacts.

Lemma catchMessage_timeout (e : JsError) :
  err_code e = Some "ECONNABORTED" -> catchMessage e = JStr "Request timed out".
Proof. intros H. unfold catchMessage. now rewrite decide_True. Qed.

Lemma catchMessage_other (e : JsError) (m : string) :
  err_code e <> Some "ECONNABORTED" -> err_message e = Some m -> m <> "" ->
  catchMessage e = JStr m.
Proof.
  intros Hc Hm Hne. unfold catchMessage. rewrite decide_False by assumption.
  rewrite Hm. unfold jsOr. simpl.
  apply String.eqb_neq in Hne. now rewrite Hne.
Qed.

(** [scrapeWithFetch] always resolves: every rejection of [axios.get] ends
    in the [catch] block. *)
Lemma scrapeWithFetch_resolves (axios_get : string -> Result AxiosResponse) (url : string) :
  exists r, scrapeWithFetch axios_get url = Ok r.
Proof.
  unfold scrapeWithFetch. destruct (axios_get url) as [resp|e]; simpl.
  - destruct (status resp =? 200); simpl; eauto.
  - eauto.
Qed.

(** On a rejected request the direct fetcher reports the timeout text for
    [ECONNABORTED] and [error.message || error] otherwise. *)
Lemma scrapeWithFetch_rejected
    (axios_get : string -> Result AxiosResponse) (url : string) (e : JsError) :
  axios_get url = Throw e ->
  scrapeWithFetch axios_get url
  = Ok {| content := JStr ""; pageStatusCode := JNull; pageError := catchMessage e |}.
Proof. intros H. unfold scrapeWithFetch. now rewrite H. Qed.

(** [scrapeWithPlaywright] always resolves as well. *)
Lemma scrapeWithPlaywright_resolves
    (generateRequestParams : string -> Result JsVal) (serviceUrl : JsVal)
    (axios_post : JsVal -> Payload -> Result AxiosResponse)
    (JSON_parse : JsVal -> Result JsVal)
    (url : string) (waitFor : Z) (headers : JsVal) :
  exists r,
    scrapeWithPlaywright generateRequestParams serviceUrl axios_post JSON_parse
      url waitFor headers = Ok r.
Proof.
  unfold scrapeWithPlaywright.
  match goal with |- exists r, tryCatch ?b ?h = Ok r => destruct b as [r|e] end;
    simpl; eauto.
Qed.

(** An error thrown before the request is made (by [generateRequestParams])
    reaches the outer [catch], which does map [ECONNABORTED]. *)
Lemma scrapeWithPlaywright_outer_catch
    (generateRequestParams : string -> Result JsVal) (serviceUrl : JsVal)
    (axios_post : JsVal -> Payload -> Result AxiosResponse)
    (JSON_parse : JsVal -> Result JsVal)
    (url : string) (waitFor : Z) (headers : JsVal) (e : JsError) :
  generateRequestParams url = Throw e ->
  scrapeWithPlaywright generateRequestParams serviceUrl axios_post JSON_parse
    url waitFor headers
  = Ok {| content := JStr ""; pageStatusCode := JNull; pageError := catchMessage e |}.
Proof. intros H. unfold scrapeWithPlaywright. now rewrite H. Qed.

(** A rejected [axios.post] is handled by the inner [catch], which keeps
    [axiosError.message || String(axiosError)] whatever the error code. *)
Lemma scrapeWithPlaywright_post_rejected
    (generateRequestParams : string -> Result JsVal) (serviceUrl : JsVal)
    (axios_post : JsVal -> Payload -> Result AxiosResponse)
    (JSON_parse : JsVal -> Result JsVal)
    (url : string) (waitFor : Z) (headers : JsVal)
    (reqParams params : JsVal) (e : JsError) :
  generateRequestParams url = Ok reqParams ->
  get reqParams "params" = Ok params ->
  (forall p, axios_post serviceUrl p = Throw e) ->
  scrapeWithPlaywright generateRequestParams serviceUrl axios_post JSON_parse
    url waitFor headers
  = Ok {| content := JStr "";
          pageStatusCode := jsOr (ofOptNum (err_response_status e)) JNull;
          pageError := jsOr (ofOptString (err_message e)) (JStr (err_toString e)) |}.
Proof.
  intros H1 H2 H3. unfold scrapeWithPlaywright.
  rewrite H1. simpl. rewrite H2. simpl. now rewrite H3.
Qed.

(** A resolved response whose status is not 200 yields
    [response.data?.pageStatusCode] and [response.data?.pageError]. *)
Lemma scrapeWithPlaywright_non200
    (generateRequestParams : string -> Result JsVal) (serviceUrl : JsVal)
    (axios_post : JsVal -> Payload -> Result AxiosResponse)
    (JSON_parse : JsVal -> Result JsVal)
    (url : string) (waitFor : Z) (headers : JsVal)
    (reqParams params : JsVal) (response : AxiosResponse) :
  generateRequestParams url = Ok reqParams ->
  get reqParams "params" = Ok params ->
  (forall p, axios_post serviceUrl p = Ok response) ->
  status response <> 200 ->
  scrapeWithPlaywright generateRequestParams serviceUrl axios_post JSON_parse
    url waitFor headers
  = Ok {| content := JStr "";
          pageStatusCode := optGet (data response) "pageStatusCode";
          pageError := optGet (data response) "pageError" |}.
Proof.
  intros H1 H2 H3 Hs. unfold scrapeWithPlaywright.
  rewrite H1. simpl. rewrite H2. simpl. rewrite H3.
  apply Z.eqb_neq in Hs. now rewrite Hs.
Qed.

End ScraperFacts.

(** C3.  A timeout of the request to the rendering service: [axios.post]
    rejects with code [ECONNABORTED].  The direct fetcher reports
    ["Request timed out"]; [scrapeWithPlaywright] resolves with the axios
    message instead, its inner [catch] having no case for the code. *)
Theorem scrapeWithPlaywright_timeout_pageError
    (serviceUrl : JsVal) (JSON_parse : JsVal -> Result JsVal)
    (url : string) (waitFor : Z) (headers : JsVal) :
  scrapeWithFetch (fun _ => Throw timeoutError) url
  = Ok {| content := JStr ""; pageStatusCode := JNull;
          pageError := JStr "Request timed out" |}
  /\
  scrapeWithPlaywright noRequestParams serviceUrl (fun _ _ => Throw timeoutError)
    JSON_parse url waitFor headers
  = Ok {| content := JStr ""; pageStatusCode := JNull;
          pageError := JStr "timeout of 15000ms exceeded" |}.
Proof. split; reflexivity. Qed.

(** C8.  The rendering service answers [201] with a JSON body carrying a
    page status and error.  [scrapeWithPlaywright] reads both from the
    unparsed body string, so they come out [undefined]: no [pageError] is
    set and [pageStatusCode] is neither 201 nor the body's code. *)
Theorem scrapeWithPlaywright_created_undefined
    (serviceUrl : JsVal) (JSON_parse : JsVal -> Result JsVal)
    (url body : string) (waitFor : Z) (headers : JsVal) :
  scrapeWithPlaywright noRequestParams serviceUrl (created body)
    JSON_parse url waitFor headers
  = Ok {| content := JStr ""; pageStatusCode := JUndefined; pageError := JUndefined |}.
Proof. reflexivity. Qed.

(** A 503 of the rendering service, which axios turns into a rejection,
    does come back with the upstream status and a message. *)
Example scrapeWithPlaywright_unavailable
    (serviceUrl : JsVal) (JSON_parse : JsVal -> Result JsVal) (url : string) :
  scrapeWithPlaywright noRequestParams serviceUrl (fun _ _ => Throw unavailableError)
    JSON_parse url 0 JUndefined
  = Ok {| content := JStr ""; pageStatusCode := JNum 503;
          pageError := JStr "Request failed with status code 503" |}.
Proof. reflexivity. Qed.

(** ** The worker pipeline *)

Lemma spread_lookup (a b : option JsObject) (k : string) :
  spread a b !! k =
  match default ∅ b !! k with
  | Some v => Some v
  | None => default ∅ a !! k
  end.
Proof.
  unfold spread. rewrite lookup_union.
  destruct (default ∅ b !! k), (default ∅ a !! k); reflexivity.
Qed.

(** C10.  The page options handed to [runWebScraper] are the job's own,
    except that [includeRawHtml] is [true] whenever the job carries a crawl
    id (a non-empty string); without one every option, [includeRawHtml]
    included, is the job's own. *)
Theorem startWebScraperPipeline_includeRawHtml (job : Job) (k : string) :
  rp_pageOptions (startWebScraperPipeline job) !! k =
  if truthy (wso_crawl_id (job_data job)) && bool_decide (k = "includeRawHtml")
  then Some (JBool true)
  else default ∅ (wso_pageOptions (job_data job)) !! k.
Proof.
  unfold startWebScraperPipeline; cbn [rp_pageOptions].
  rewrite spread_lookup.
  destruct (truthy (wso_crawl_id (job_data job))); simpl.
  - case_bool_decide as Hk.
    + subst k. now rewrite lookup_singleton_eq.
    + rewrite lookup_singleton_ne by congruence. reflexivity.
  - now rewrite lookup_empty.
Qed.

(** ** [WebScraperDataProvider] *)

Lemma setOptions_includeMarkdown (options : ProviderOptions) (this : Provider) :
  setOptions options = Ok this ->
  prop (pageOptions this) "includeMarkdown"
  = nullish (optProp (po_pageOptions options) "includeMarkdown") (JBool true).
Proof.
  unfold setOptions. destruct (po_urls options); [|discriminate].
  intros [= <-]. unfold prop; cbn [pageOptions pageOptionDefaults map list_to_map foldr].
  rewrite !lookup_insert_ne by discriminate.
  now rewrite lookup_insert_eq.
Qed.

Lemma setOptions_includeRawHtml (options : ProviderOptions) (this : Provider) :
  setOptions options = Ok this ->
  prop (pageOptions this) "includeRawHtml"
  = nullish (optProp (po_pageOptions options) "includeRawHtml") (JBool false).
Proof.
  unfold setOptions. destruct (po_urls options); [|discriminate].
  intros [= <-]. unfold prop; cbn [pageOptions pageOptionDefaults map list_to_map foldr].
  rewrite !lookup_insert_ne by discriminate.
  now rewrite lookup_insert_eq.
Qed.

Lemma setOptions_replaceAll (options : ProviderOptions) (this : Provider) :
  setOptions options = Ok this ->
  replaceAllPathsWithAbsolutePaths this
  = nullish (optProp (po_crawlerOptions options) "replaceAllPathsWithAbsolutePaths")
      (nullish (optProp (po_pageOptions options) "replaceAllPathsWithAbsolutePaths")
         (JBool false)).
Proof.
  unfold setOptions. destruct (po_urls options); [|discriminate].
  now intros [= <-].
Qed.

(** Followed into the provider: for a job of a crawl, the [pageOptions] that
    [setOptions] stores have [includeRawHtml] on. *)
Lemma crawl_job_provider_includeRawHtml (job : Job) (this : Provider) :
  truthy (wso_crawl_id (job_data job)) = true ->
  setOptions (runWebScraper_options (startWebScraperPipeline job)) = Ok this ->
  prop (pageOptions this) "includeRawHtml" = JBool true.
Proof.
  intros Hid Hset. rewrite (setOptions_includeRawHtml _ _ Hset).
  cbn [runWebScraper_options po_pageOptions optProp startWebScraperPipeline rp_pageOptions].
  unfold prop. rewrite spread_lookup, Hid. simpl.
  now rewrite lookup_singleton_eq.
Qed.

(** C2 (as stated, refuted).  With [includeMarkdown: false] and
    [replaceAllPathsWithAbsolutePaths: true] the flag is set, yet
    [processLinks] resolves with the documents as built: the rewrite that
    [applyPathReplacements] would have made is not applied. *)
Lemma processLinks_html_only_not_rewritten :
  let this := providerOf htmlOnlyOptions in
  setOptions htmlOnlyOptions = Ok this /\
  truthy (replaceAllPathsWithAbsolutePaths this) = true /\
  exists built,
    builtDocuments examplePage noSitemapData (fun v => v) this ["https://ex.com"] None
    = Ok built /\
    processLinks examplePage noSitemapData (fun v => v) absolutize (fun ds => ds)
      this ["https://ex.com"] None = Ok built /\
    applyPathReplacements absolutize (fun ds => ds) this built <> built.
Proof.
  cbv zeta. split; [reflexivity|]. split; [reflexivity|].
  eexists. split; [reflexivity|]. split; [reflexivity|].
  vm_compute. discriminate.
Qed.

(** C2 (amended).  After a successful fetch, [processLinks] applies path
    rewrites to the built documents only when [includeMarkdown] is on (it
    defaults to [true]): then [replacePathsWithAbsolutePaths] runs if
    [replaceAllPathsWithAbsolutePaths] is set, followed by
    [replaceImgPathsWithAbsolutePaths]; with [includeMarkdown] off the built
    documents are returned as they are. *)
Theorem processLinks_path_rewrites
    (scrapeSingleUrl : string -> JsObject -> JsVal -> Document)
    (fetchSitemapData : JsVal -> JsVal -> Result (option (list SitemapEntry)))
    (Number : JsVal -> JsVal)
    (replacePaths replaceImgPaths : list Document -> list Document)
    (options : ProviderOptions) (this : Provider)
    (links : list string) (allHtmls : option (list JsVal)) :
  setOptions options = Ok this ->
  processLinks scrapeSingleUrl fetchSitemapData Number replacePaths replaceImgPaths
    this links allHtmls
  = built ← builtDocuments scrapeSingleUrl fetchSitemapData Number this links allHtmls;
    Ok (if truthy (nullish (optProp (po_pageOptions options) "includeMarkdown") (JBool true))
        then replaceImgPaths
               (if truthy (replaceAllPathsWithAbsolutePaths this)
                then replacePaths built else built)
        else built).
Proof.
  intros Hset. unfold processLinks.
  rewrite (setOptions_includeMarkdown _ _ Hset).
  destruct (builtDocuments _ _ _ _ _ _) as [built|e]; [|reflexivity].
  simpl. now destruct (truthy (nullish _ _)).
Qed.

(** The same page with markdown left on: the rewrite is applied. *)
Lemma processLinks_path_rewrites_markdown :
  setOptions markdownOptions = Ok (providerOf markdownOptions) /\
  processLinks examplePage noSitemapData (fun v => v) absolutize (fun ds => ds)
    (providerOf markdownOptions) ["https://ex.com"] None
  = built ← builtDocuments examplePage noSitemapData (fun v => v)
              (providerOf markdownOptions) ["https://ex.com"] None;
    Ok (if truthy (nullish (optProp (po_pageOptions markdownOptions) "includeMarkdown")
                     (JBool true))
        then (fun ds => ds)
               (if truthy (replaceAllPathsWithAbsolutePaths (providerOf markdownOptions))
                then absolutize built else built)
        else built).
Proof.
  split; [reflexivity|].
  apply (processLinks_path_rewrites examplePage noSitemapData (fun v => v)
           absolutize (fun ds => ds) markdownOptions (providerOf markdownOptions)
           ["https://ex.com"] None).
  reflexivity.
Defined.

(** ** The crawl controller *)

Section ControllerFacts.
Variable w : World.
Variable req : Request.

Lemma lockSet_addLocks (id : string) (us : gset string) (s : Store) :
  lockSet (addLocks id us s) id = us ∪ lockSet s id.
Proof. unfold lockSet at 1, addLocks; simpl. now rewrite lookup_insert_eq. Qed.

Lemma lockSet_addMembers (id id' : string) (js : gset string) (s : Store) :
  lockSet (addMembers id js s) id' = lockSet s id'.
Proof. reflexivity. Qed.

Lemma jobSet_addMembers (id : string) (js : gset string) (s : Store) :
  jobSet (addMembers id js s) id = js ∪ jobSet s id.
Proof. unfold jobSet at 1, addMembers; simpl. now rewrite lookup_insert_eq. Qed.

(** Locks are never released: no call shrinks a lock set. *)
Lemma step_lockSet_mono (c : Call) (s : Store) (id : string) :
  lockSet s id ⊆ lockSet (step c s) id.
Proof.
  destruct c; simpl; try reflexivity;
    unfold lockSet, addLocks; simpl;
    (destruct (decide (id0 = id)) as [->|Hne];
     [rewrite lookup_insert_eq; simpl; set_solver
     |rewrite lookup_insert_ne by assumption; reflexivity]).
Qed.

Lemma sitemapJobs_lookup (sitemap : list SitemapLink) (i : nat) (j : QueueJob) :
  sitemapJobs w req sitemap !! i = Some j ->
  exists x, sitemap !! i = Some x /\
    j = {| job_name := uuidv4 w (S i);
           job_payload := jobData w req (link_url x) (JBool true);
           job_opts := {| opt_jobId := uuidv4 w (S i); opt_priority := 20 |} |}.
Proof.
  unfold sitemapJobs. rewrite list_lookup_imap.
  destruct (sitemap !! i) as [x|]; simpl; [|discriminate].
  intros [= <-]. eauto.
Qed.

Lemma length_sitemapJobs (sitemap : list SitemapLink) :
  length (sitemapJobs w req sitemap) = length sitemap.
Proof. unfold sitemapJobs. apply length_imap. Qed.

(** Whatever the sitemap's size and whatever the priority policy answers,
    the options of every job built for [addBulk] say [priority: 20]. *)
Lemma sitemapJobs_priority (sitemap : list SitemapLink) :
  Forall (fun j => opt_priority (job_opts j) = 20) (sitemapJobs w req sitemap).
Proof.
  apply Forall_lookup. intros i j Hj.
  apply sitemapJobs_lookup in Hj as (x & _ & ->). reflexivity.
Qed.

Lemma sitemapJobs_crawlOf (sitemap : list SitemapLink) :
  Forall (fun j => crawlOf j = uuidv4 w 0) (sitemapJobs w req sitemap).
Proof.
  apply Forall_lookup. intros i j Hj.
  apply sitemapJobs_lookup in Hj as (x & _ & ->). reflexivity.
Qed.

Lemma crawlController_rejected (message : string) :
  validationError w req = Some message ->
  crawlController w req
  = ({| res_status := 400; res_json := ErrorResponse message |}, []).
Proof. intros H. unfold crawlController. now rewrite H. Qed.

Lemma crawlController_sitemap_calls (sitemap : list SitemapLink) :
  validationError w req = None ->
  fetchedSitemap w req = Some sitemap ->
  sitemap <> [] ->
  snd (crawlController w req)
  = SaveCrawl (uuidv4 w 0) (storedCrawl w req) :: sitemapCalls w req sitemap.
Proof.
  intros Hv Hs Hne. unfold crawlController. rewrite Hv, Hs.
  destruct sitemap; [contradiction | reflexivity].
Qed.

Lemma crawlController_seed_calls :
  validationError w req = None ->
  fetchedSitemap w req = None \/ fetchedSitemap w req = Some [] ->
  snd (crawlController w req)
  = SaveCrawl (uuidv4 w 0) (storedCrawl w req) :: seedCalls w req.
Proof.
  intros Hv Hs. unfold crawlController. rewrite Hv.
  destruct Hs as [-> | ->]; reflexivity.
Qed.

End ControllerFacts.

Lemma firstRegExpError_Exists (w : World) (xs : list JsVal) :
  Exists (fun x => is_Some (RegExp_error w x)) xs ->
  is_Some (firstRegExpError w xs).
Proof.
  induction 1 as [x xs [m Hm] | x xs _ IH]; simpl.
  - rewrite Hm. eauto.
  - destruct (RegExp_error w x); eauto.
Qed.

(** A trace satisfies [lockedAtEnqueue] exactly when each of its calls,
    made after the calls before it, enqueues locked jobs only. *)
Lemma lockedAtEnqueue_split (s : Store) (pre post : list Call) (c : Call) :
  lockedAtEnqueue s (pre ++ c :: post) ->
  Forall (locked (run pre s)) (enqueued c).
Proof.
  revert s; induction pre as [|c' pre IH]; intros s; simpl.
  - now intros [H _].
  - intros [_ H]. now apply IH.
Qed.

(** C1.  A sitemap of 1001 pages under [ignoreSitemap: false]: the priority
    policy is consulted with base 21 and answers 21, which is what the local
    [jobPriority] holds; the 1001 jobs handed to [addBulk] nevertheless all
    carry priority 20. *)
Theorem large_sitemap_jobs_keep_priority_20 :
  jobPriority largeSitemapWorld exampleRequest (sitemapOf 1001) = 21 /\
  exists sc us ids jobs,
    snd (crawlController largeSitemapWorld exampleRequest)
    = [ SaveCrawl "uuid-0" sc; GetJobPriority "growth" "team-1" 21;
        LockURLs "uuid-0" us; AddCrawlJobs "uuid-0" ids; AddBulk jobs ] /\
    length jobs = 1001%nat /\
    Forall (fun j => opt_priority (job_opts j) = 20) jobs.
Proof.
  split; [reflexivity|].
  eexists _, _, _, (sitemapJobs largeSitemapWorld exampleRequest (sitemapOf 1001)).
  split; [|split].
  - rewrite (crawlController_sitemap_calls _ _ (sitemapOf 1001));
      [reflexivity | reflexivity | reflexivity | discriminate].
  - rewrite length_sitemapJobs. reflexivity.
  - apply sitemapJobs_priority.
Qed.

(** C5.  On every path of the controller, each job is enqueued into a store
    in which its URL already belongs to the lock set of its crawl: the
    lock call precedes the enqueue call. *)
Theorem crawlController_locks_before_enqueue (w : World) (req : Request) (s : Store) :
  lockedAtEnqueue s (snd (crawlController w req)).
Proof.
  unfold crawlController.
  destruct (validationError w req); [exact I|].
  cbn [snd lockedAtEnqueue enqueued]. split; [constructor|].
  set (s1 := step _ s).
  destruct (fetchedSitemap w req) as [[|x rest]|].
  - (* empty sitemap: seed path *)
    unfold seedCalls. cbn [lockedAtEnqueue enqueued step].
    repeat split; try constructor; try constructor.
    unfold locked; cbn. rewrite lockSet_addLocks. set_solver.
  - (* sitemap path *)
    unfold sitemapCalls.
    set (jobs := sitemapJobs w req (x :: rest)).
    assert (Hjobs : Forall (locked
              (step (AddCrawlJobs (uuidv4 w 0) (map (fun j => opt_jobId (job_opts j)) jobs))
                 (step (LockURLs (uuidv4 w 0) (map (fun j => wso_url (job_payload j)) jobs))
                    s1))) jobs).
    { apply Forall_forall. intros j Hj.
      pose proof (sitemapJobs_crawlOf w req (x :: rest)) as Hc.
      rewrite Forall_forall in Hc. specialize (Hc j Hj).
      unfold locked. rewrite Hc. cbn [step].
      rewrite lockSet_addMembers, lockSet_addLocks.
      apply elem_of_union_l, elem_of_list_to_set, list_elem_of_fmap.
      exists j. split; [reflexivity | exact Hj]. }
    clearbody jobs.
    destruct (1000 <? Z.of_nat (length (x :: rest)));
      cbn [app lockedAtEnqueue enqueued step];
      repeat split; first [exact Hjobs | constructor].
  - (* no sitemap: seed path *)
    unfold seedCalls. cbn [lockedAtEnqueue enqueued step].
    repeat split; try constructor; try constructor.
    unfold locked; cbn. rewrite lockSet_addLocks. set_solver.
Qed.

Lemma fetchedSitemap_ignored (w : World) (req : Request) :
  prop (legacyCrawlerOptions w (req_body req)) "ignoreSitemap" = JBool true \/
  prop (legacyCrawlerOptions w (req_body req)) "ignoreSitemap" = JUndefined ->
  fetchedSitemap w req = None.
Proof.
  intros H. unfold fetchedSitemap.
  replace (sc_crawlerOptions (storedCrawl w req))
    with (legacyCrawlerOptions w (req_body req))
    by (unfold storedCrawl; now destruct (getRobotsTxt _ _ _)).
  destruct H as [-> | ->]; reflexivity.
Qed.

Lemma fetchedSitemap_fetched (w : World) (req : Request) (r : option (list SitemapLink)) :
  tryGetSitemap w (uuidv4 w 0) (storedCrawl w req) = r ->
  fetchedSitemap w req = None \/ fetchedSitemap w req = r.
Proof.
  intros <-. unfold fetchedSitemap.
  destruct (truthy _); [now left | now right].
Qed.

(** C6.  When the submission passes validation and either [ignoreSitemap]
    is [true] or absent, or the sitemap fetch yields [null] or an empty
    list, the controller leaves the store with exactly one more queued job:
    the seed job for the origin URL, in mode [single_urls], enqueued with
    [priority: 15]; the origin URL is in the crawl's lock set and the job's
    id in the crawl's membership set. *)
Theorem crawlController_seed_job (w : World) (req : Request) (s : Store) :
  validationError w req = None ->
  prop (legacyCrawlerOptions w (req_body req)) "ignoreSitemap" = JBool true \/
  prop (legacyCrawlerOptions w (req_body req)) "ignoreSitemap" = JUndefined \/
  tryGetSitemap w (uuidv4 w 0) (storedCrawl w req) = None \/
  tryGetSitemap w (uuidv4 w 0) (storedCrawl w req) = Some [] ->
  let s' := run (snd (crawlController w req)) s in
  exists seed,
    queue s' = (queue s ++ [seed])%list /\
    wso_url (job_payload seed) = body_url (req_body req) /\
    wso_mode (job_payload seed) = single_urls /\
    wso_crawl_id (job_payload seed) = JStr (uuidv4 w 0) /\
    opt_priority (job_opts seed) = 15 /\
    body_url (req_body req) ∈ lockSet s' (uuidv4 w 0) /\
    opt_jobId (job_opts seed) ∈ jobSet s' (uuidv4 w 0).
Proof.
  intros Hv Hcase.
  assert (Hs : fetchedSitemap w req = None \/ fetchedSitemap w req = Some []).
  { destruct Hcase as [H | [H | [H | H]]].
    - left. apply fetchedSitemap_ignored. now left.
    - left. apply fetchedSitemap_ignored. now right.
    - left. now destruct (fetchedSitemap_fetched w req None H).
    - destruct (fetchedSitemap_fetched w req (Some []) H); [now left | now right]. }
  rewrite (crawlController_seed_calls w req Hv Hs).
  unfold seedCalls, run; cbn [fold_left step enqueued enqueue queue].
  eexists. split; [reflexivity|]. cbn.
  repeat split.
  - rewrite lockSet_addMembers. unfold enqueue, lockSet at 1; cbn [locks].
    change (default ∅ (locks ?t !! ?i)) with (lockSet t i).
    rewrite lockSet_addLocks. now apply elem_of_union_l, elem_of_singleton.
  - rewrite jobSet_addMembers. now apply elem_of_union_l, elem_of_singleton.
Qed.

(** The seed path on a submission that leaves [ignoreSitemap] out. *)
Lemma crawlController_seed_job_default :
  validationError seedWorld exampleRequest = None /\
  let s' := run (snd (crawlController seedWorld exampleRequest)) emptyStore in
  exists seed,
    queue s' = (queue emptyStore ++ [seed])%list /\
    wso_url (job_payload seed) = "https://ex.com/a" /\
    wso_mode (job_payload seed) = single_urls /\
    wso_crawl_id (job_payload seed) = JStr "uuid-0" /\
    opt_priority (job_opts seed) = 15 /\
    "https://ex.com/a" ∈ lockSet s' "uuid-0" /\
    opt_jobId (job_opts seed) ∈ jobSet s' "uuid-0".
Proof.
  split; [reflexivity|].
  apply (crawlController_seed_job seedWorld exampleRequest emptyStore).
  - reflexivity.
  - right; left. reflexivity.
Defined.

(** C7.  If [includes] or [excludes] is an array with a pattern that does
    not compile, the controller answers 400 with [{ success: false, error }]
    and makes no call at all: no crawl is saved, nothing is locked or
    enqueued, and the store is as it was. *)
Theorem crawlController_invalid_regex (w : World) (req : Request) :
  (exists xs, prop (legacyCrawlerOptions w (req_body req)) "includes" = JArr xs /\
              Exists (fun x => is_Some (RegExp_error w x)) xs) \/
  (exists xs, prop (legacyCrawlerOptions w (req_body req)) "excludes" = JArr xs /\
              Exists (fun x => is_Some (RegExp_error w x)) xs) ->
  exists error,
    crawlController w req
    = ({| res_status := 400; res_json := ErrorResponse error |}, []) /\
    forall s, run (snd (crawlController w req)) s = s.
Proof.
  intros H.
  assert (Hv : is_Some (validationError w req)).
  { unfold validationError.
    destruct H as [(xs & Hp & Hx) | (xs & Hp & Hx)]; rewrite Hp; simpl.
    - destruct (firstRegExpError_Exists w xs Hx) as [m ->]. eauto.
    - destruct (validatePatterns w _); [eauto|].
      apply firstRegExpError_Exists, Hx. }
  destruct Hv as [error Hv]. exists error.
  rewrite (crawlController_rejected w req error Hv).
  split; reflexivity.
Qed.

(** A submission with [includes: ["("]]. *)
Lemma crawlController_invalid_regex_includes :
  exists error,
    crawlController badIncludesWorld exampleRequest
    = ({| res_status := 400; res_json := ErrorResponse error |}, []) /\
    forall s, run (snd (crawlController badIncludesWorld exampleRequest)) s = s.
Proof.
  apply (crawlController_invalid_regex badIncludesWorld exampleRequest).
  left. exists [JStr "("]. split; [reflexivity|].
  constructor. simpl. eauto.
Defined.

(** C9.  A submission that passes validation is answered with status 200 and
    [{ success: true, id, url }], where [url] is
    [<scheme>://<host>/v1/crawl/<id>] and the scheme is the request's own
    protocol when [ENV] is ["local"] and ["https"] otherwise. *)
Theorem crawlController_success_response (w : World) (req : Request) :
  validationError w req = None ->
  fst (crawlController w req)
  = {| res_status := 200;
       res_json :=
         SuccessResponse (uuidv4 w 0)
           ((if decide (process_env_ENV w = Some "local")
             then req_protocol req else "https")
            +:+ "://" +:+ template (req_host req) +:+ "/v1/crawl/" +:+ uuidv4 w 0) |}.
Proof. intros Hv. unfold crawlController. now rewrite Hv. Qed.

(** A remote deployment ([ENV] unset) answers with an [https] URL although
    the request itself came over [http]. *)
Lemma crawlController_success_response_remote :
  fst (crawlController seedWorld exampleRequest)
  = {| res_status := 200;
       res_json := SuccessResponse "uuid-0" "https://api.example.com/v1/crawl/uuid-0" |}.
Proof.
  apply (crawlController_success_response seedWorld exampleRequest).
  reflexivity.
Defined.

(** ** The specification's scenarios *)

(** Seed only: one job at priority 15 for the seed, which is the whole lock
    set. *)
Example scenario_seed_only :
  let s := run (snd (crawlController seedWorld exampleRequest)) emptyStore in
  map (fun j => (wso_url (job_payload j), opt_priority (job_opts j))) (queue s)
  = [("https://ex.com/a", 15)] /\
  lockSet s "uuid-0" = {["https://ex.com/a"]} /\
  jobSet s "uuid-0" = {["uuid-1"]}.
Proof. cbv zeta. repeat split; vm_compute; reflexivity. Qed.

(** Small sitemap: three jobs at priority 20, each [sitemapped], their URLs
    locked, no seed job and no priority lookup. *)
Example scenario_small_sitemap :
  let calls := snd (crawlController smallSitemapWorld exampleRequest) in
  let s := run calls emptyStore in
  map (fun j => (wso_url (job_payload j), opt_priority (job_opts j),
                 wso_sitemapped (job_payload j))) (queue s)
  = [ ("https://ex.com/p0", 20, JBool true);
      ("https://ex.com/p1", 20, JBool true);
      ("https://ex.com/p2", 20, JBool true) ] /\
  lockSet s "uuid-0"
  = list_to_set ["https://ex.com/p0"; "https://ex.com/p1"; "https://ex.com/p2"] /\
  length calls = 4%nat.
Proof. cbv zeta. repeat split; vm_compute; reflexivity. Qed.

(** [ignoreSitemap: false] with an unreachable sitemap: the seed path. *)
Example scenario_unreachable_sitemap :
  snd (crawlController noSitemapWorld exampleRequest)
  = SaveCrawl "uuid-0" (storedCrawl noSitemapWorld exampleRequest)
    :: seedCalls noSitemapWorld exampleRequest.
Proof. reflexivity. Qed.

(** * Further properties of the code *)

(** ** [normalizeUrl] *)

Lemma startsWith_www_head (c : ascii) (s : string) :
  Ascii.eqb c "/" = false -> JsString.startsWith "//www." (String c s) = false.
Proof.
  intros H. cbn [JsString.startsWith]. rewrite Ascii.eqb_sym. now rewrite H.
Qed.

Lemma includes_www_lacks (a s : string) :
  lacks "/" a = true ->
  JsString.includes "//www." (a +:+ s) = JsString.includes "//www." s.
Proof.
  induction a as [|c a IH]; intros H; [reflexivity|].
  cbn [lacks] in H. apply andb_true_iff in H as [Hc Ha].
  apply negb_true_iff in Hc.
  rewrite append_cons. cbn [JsString.includes].
  rewrite (startsWith_www_head c _ Hc). simpl. now apply IH.
Qed.

Lemma replace_www_lacks (r a s : string) :
  lacks "/" a = true ->
  JsString.replace "//www." r (a +:+ s) = a +:+ JsString.replace "//www." r s.
Proof.
  induction a as [|c a IH]; intros H; [reflexivity|].
  cbn [lacks] in H. apply andb_true_iff in H as [Hc Ha].
  apply negb_true_iff in Hc.
  rewrite !append_cons. cbn [JsString.replace].
  rewrite (startsWith_www_head c _ Hc). f_equal. now apply IH.
Qed.

Lemma includes_startsWith (p s : string) :
  JsString.startsWith p s = true -> JsString.includes p s = true.
Proof. intros H. destruct s; cbn [JsString.includes]; now rewrite H. Qed.

Lemma replace_startsWith (p r s : string) :
  JsString.startsWith p s = true ->
  JsString.replace p r s = r +:+ JsString.slice (String.length p) s.
Proof. intros H. destruct s; cbn [JsString.replace]; now rewrite H. Qed.

Lemma slice_append (p s : string) : JsString.slice (String.length p) (p +:+ s) = s.
Proof. induction p as [|c p IH]; [reflexivity|]. rewrite append_cons. exact IH. Qed.

(** X1.  The www and the non-www form of a URL normalise to the same string:
    for a scheme without [/] (["https:"]) and a remainder in which no further
    ["//www."] shows up, both [scheme//www.rest] and [scheme//rest] normalise
    to [scheme//rest]. *)
Theorem normalizeUrl_www_variants (scheme rest : string) :
  lacks "/" scheme = true ->
  JsString.includes "//www." ("//" +:+ rest) = false ->
  normalizeUrl (scheme +:+ "//www." +:+ rest) = scheme +:+ "//" +:+ rest /\
  normalizeUrl (scheme +:+ "//" +:+ rest) = scheme +:+ "//" +:+ rest.
Proof.
  intros Hs Hr. unfold normalizeUrl. split.
  - rewrite (includes_www_lacks _ _ Hs), (replace_www_lacks _ _ _ Hs).
    rewrite (includes_startsWith _ _ (startsWith_append "//www." rest)).
    rewrite (replace_startsWith _ _ _ (startsWith_append "//www." rest)).
    now rewrite slice_append.
  - now rewrite (includes_www_lacks _ _ Hs), Hr.
Qed.

(** Both spellings of [https://(www.)example.com/docs]. *)
Lemma normalizeUrl_www_variants_example :
  normalizeUrl ("https:" +:+ "//www." +:+ "example.com/docs")
  = "https:" +:+ "//" +:+ "example.com/docs" /\
  normalizeUrl ("https:" +:+ "//" +:+ "example.com/docs")
  = "https:" +:+ "//" +:+ "example.com/docs".
Proof.
  apply (normalizeUrl_www_variants "https:" "example.com/docs"); reflexivity.
Defined.

(** X2.  [normalizeUrl] never lengthens a URL: it returns its argument when
    that has no ["//www."] and a string exactly four characters shorter
    when it has. *)
Theorem normalizeUrl_length (u : string) :
  String.length (normalizeUrl u)
  = if JsString.includes "//www." u
    then (String.length u - 4)%nat
    else String.length u.
Proof.
  unfold normalizeUrl. destruct (JsString.includes "//www." u) eqn:E; [|reflexivity].
  pose proof (replace_length "//www." "//" u E) as L. simpl in L. lia.
Qed.

(** ** The fetch clients, case by case *)




(** ** Sitemap metadata and link filtering *)

Lemma withoutSitemap_set_sitemap (v : JsVal) (d : Document) :
  withoutSitemap (set_sitemap v d) = withoutSitemap d.
Proof. reflexivity. Qed.

Lemma sitemapDocData_keys (Number : JsVal -> JsVal) (e : SitemapEntry) :
  Forall (fun kv => In (fst kv) ["changefreq"; "priority"; "lastmod"])
         (sitemapDocData Number e).
Proof.
  unfold sitemapDocData.
  destruct (truthy (changefreq e)), (truthy (sm_priority e)), (truthy (lastmod e));
    simpl; repeat (constructor; [simpl; tauto|]); constructor.
Qed.

(** X5.  [getSitemapDataForSingleUrl] fails only when [fetchSitemapData]
    does, and what it returns is [null] or an object with at least one of
    the keys [changefreq], [priority], [lastmod] and no other: never an
    empty object. *)
Theorem getSitemapDataForSingleUrl_result
    (fetchSitemapData : JsVal -> JsVal -> Result (option (list SitemapEntry)))
    (Number : JsVal -> JsVal) (baseUrl : JsVal) (url : string) (timeout : JsVal) :
  match getSitemapDataForSingleUrl fetchSitemapData Number baseUrl url timeout with
  | Ok v =>
      v = JNull \/
      exists fields,
        v = JObj fields /\ fields <> [] /\
        Forall (fun kv => In (fst kv) ["changefreq"; "priority"; "lastmod"]) fields
  | Throw e => fetchSitemapData baseUrl timeout = Throw e
  end.
Proof.
  unfold getSitemapDataForSingleUrl.
  destruct (fetchSitemapData baseUrl timeout) as [[entries|]|e]; simpl; auto.
  destruct (findInSitemap entries url) as [e|]; auto.
  destruct (sitemapDocData Number e) as [|kv fields] eqn:E; simpl; auto.
  right. exists (kv :: fields). split; [reflexivity|]. split; [discriminate|].
  rewrite <- E. apply sitemapDocData_keys.
Qed.

Lemma getSitemapData_keeps
    (fetchSitemapData : JsVal -> JsVal -> Result (option (list SitemapEntry)))
    (Number : JsVal -> JsVal) (baseUrl : JsVal) (documents : list Document) :
  match getSitemapData fetchSitemapData Number baseUrl documents with
  | Ok documents' => map withoutSitemap documents' = map withoutSitemap documents
  | Throw e => fetchSitemapData baseUrl JUndefined = Throw e
  end.
Proof.
  unfold getSitemapData.
  destruct (fetchSitemapData baseUrl JUndefined) as [[entries|]|e]; simpl; auto.
  rewrite map_map. apply map_ext. intros d.
  destruct (findInSitemap entries _) as [e|]; [|reflexivity].
  now destruct (negb _).
Qed.

(** X6.  [getSitemapData] fails only when [fetchSitemapData] does; otherwise
    it returns the same documents in the same order, changed in nothing but
    [metadata.sitemap]. *)
Theorem getSitemapData_documents
    (fetchSitemapData : JsVal -> JsVal -> Result (option (list SitemapEntry)))
    (Number : JsVal -> JsVal) (baseUrl : JsVal) (documents : list Document) :
  match getSitemapData fetchSitemapData Number baseUrl documents with
  | Ok documents' => map withoutSitemap documents' = map withoutSitemap documents
  | Throw e => fetchSitemapData baseUrl JUndefined = Throw e
  end.
Proof. apply getSitemapData_keeps. Qed.




(** ** The URLs of a provider *)

Lemma append_assoc_s (a b c : string) : (a +:+ b) +:+ c = a +:+ (b +:+ c).
Proof.
  induction a as [|x a IH]; [reflexivity|].
  rewrite !append_cons. now rewrite IH.
Qed.

Lemma append_empty_r (a : string) : a +:+ "" = a.
Proof. induction a as [|x a IH]; [reflexivity|]. rewrite append_cons. now rewrite IH. Qed.

Lemma rev_app_spec (s acc : string) : String.rev_app s acc = String.rev s +:+ acc.
Proof.
  revert acc. induction s as [|c s IH]; intros acc; [reflexivity|].
  unfold String.rev. cbn [String.rev_app].
  rewrite (IH (String c acc)), (IH (String c "")).
  now rewrite append_assoc_s, append_cons.
Qed.

Lemma rev_cons (c : ascii) (s : string) :
  String.rev (String c s) = String.rev s +:+ String c "".
Proof. unfold String.rev at 1. cbn [String.rev_app]. apply rev_app_spec. Qed.

Lemma rev_append (a b : string) : String.rev (a +:+ b) = String.rev b +:+ String.rev a.
Proof.
  induction a as [|c a IH].
  - change ("" +:+ b) with b. change (String.rev "") with "". now rewrite append_empty_r.
  - rewrite append_cons, !rev_cons, IH. apply append_assoc_s.
Qed.

Lemma rev_involutive_s (s : string) : String.rev (String.rev s) = s.
Proof.
  induction s as [|c s IH]; [reflexivity|].
  rewrite rev_cons, rev_append, IH. reflexivity.
Qed.

Lemma allSpaces_append (a b : string) :
  allSpaces (a +:+ b) = allSpaces a && allSpaces b.
Proof.
  induction a as [|c a IH]; [reflexivity|].
  rewrite append_cons. cbn [allSpaces]. rewrite IH. apply andb_assoc.
Qed.

Lemma trimStart_append (a b : string) :
  JsString.trimStart (a +:+ b)
  = if allSpaces a then JsString.trimStart b else JsString.trimStart a +:+ b.
Proof.
  induction a as [|c a IH]; [reflexivity|].
  rewrite append_cons. cbn [JsString.trimStart allSpaces].
  destruct (Ascii.is_space c); cbn [andb]; [exact IH | now rewrite append_cons].
Qed.

(** Trimming a string that begins with ["https://"] keeps that beginning. *)
Lemma trim_https (url : string) :
  JsString.startsWith "http" (JsString.trim ("https://" +:+ url)) = true.
Proof.
  unfold JsString.trim.
  rewrite (trimStart_append "https://" url). cbn [allSpaces andb Ascii.is_space].
  change (JsString.trimStart "https://") with "https://".
  rewrite rev_append, trimStart_append.
  destruct (allSpaces (String.rev url)).
  - reflexivity.
  - rewrite rev_append, rev_involutive_s. apply (startsWith_append "http").
Qed.

Lemma startsWith_nonempty (p s : string) :
  p <> "" -> JsString.startsWith p s = true -> s <> "".
Proof. intros Hp H ->. destruct p; [congruence | discriminate]. Qed.

(** The URLs [setOptions] stores. *)
Lemma setOptions_urls (options : ProviderOptions) :
  match setOptions options with
  | Ok this =>
      exists given,
        po_urls options = Some given /\
        length (urls this) = length given /\
        Forall (fun url => JsString.startsWith "http" (JsString.trim url) = true)
               (urls this)
  | Throw _ => po_urls options = None
  end.
Proof.
  unfold setOptions. destruct (po_urls options) as [given|]; [|reflexivity].
  exists given. cbn [urls]. split; [reflexivity|]. split; [apply length_map|].
  apply Forall_forall. intros url Hin.
  apply list_elem_of_In, in_map_iff in Hin as (u & <- & _).
  destruct (JsString.startsWith "http" (JsString.trim u)) eqn:E; [exact E|].
  apply trim_https.
Qed.


Lemma split_nonempty (c : ascii) (s : string) : JsString.split c s <> [].
Proof.
  destruct s as [|a s]; [discriminate|]. cbn [JsString.split].
  destruct (Ascii.eqb a c); [discriminate|].
  destruct (JsString.split c s); discriminate.
Qed.

(** X9.  For the options [runWebScraper] passes, [setOptions] succeeds and
    the initial-URL check of [getDocuments] passes, whatever the job's URL:
    the ["Url is required"] error cannot occur there, an empty URL having
    become ["https://"]. *)
Theorem runWebScraper_initial_url_valid (p : RunWebScraperParams) :
  exists this,
    setOptions (runWebScraper_options p) = Ok this /\
    validateInitialUrl this = Ok tt.
Proof.
  pose proof (setOptions_urls (runWebScraper_options p)) as H.
  destruct (setOptions (runWebScraper_options p)) as [this|e]; [|discriminate H].
  exists this. split; [reflexivity|].
  destruct H as (given & Hg & Hlen & Hall).
  unfold validateInitialUrl. destruct (urls this) as [|url0 rest].
  - exfalso. cbn in Hg. injection Hg as <-.
    destruct (Mode_eqb (rp_mode p) crawl); [discriminate Hlen|].
    destruct (JsString.split "," (rp_url p)) eqn:E; [|discriminate Hlen].
    now apply split_nonempty in E.
  - apply Forall_cons in Hall as [H0 _].
    apply startsWith_nonempty in H0; [|discriminate].
    apply String.eqb_neq in H0. now rewrite H0.
Qed.

(** ** [mergeNewDocuments] *)

Lemma sameSource_key (d doc : Document) :
  sameSource d doc = true <-> sourceKey d = sourceKey doc.
Proof. unfold sameSource, sourceKey. apply String.eqb_eq. Qed.

Lemma existsb_sameSource (existing : list Document) (doc : Document) :
  existsb (fun d => sameSource d doc) existing = true <->
  sourceKey doc ∈ map sourceKey existing.
Proof.
  rewrite existsb_exists, list_elem_of_fmap. split.
  - intros (d & Hd & Hs). exists d. apply sameSource_key in Hs.
    split; [congruence | now apply list_elem_of_In].
  - intros (d & Hk & Hd). exists d.
    split; [now apply list_elem_of_In | apply sameSource_key; congruence].
Qed.

Lemma mergeNewDocuments_cons (existing : list Document) (doc : Document)
    (newDocuments : list Document) :
  mergeNewDocuments existing (doc :: newDocuments)
  = mergeNewDocuments
      (if negb (existsb (fun d => sameSource d doc) existing)
       then existing ++ [doc] else existing)%list
      newDocuments.
Proof. reflexivity. Qed.

Lemma mergeNewDocuments_extends (existing newDocuments : list Document) :
  exists added,
    mergeNewDocuments existing newDocuments = (existing ++ added)%list /\
    sublist added newDocuments.
Proof.
  revert existing. induction newDocuments as [|doc rest IH]; intros existing.
  - exists []. split; [now rewrite app_nil_r | constructor].
  - rewrite mergeNewDocuments_cons.
    destruct (negb _).
    + destruct (IH (existing ++ [doc])%list) as (added & -> & Hsub).
      exists (doc :: added). split; [now rewrite <- app_assoc | now constructor].
    + destruct (IH existing) as (added & -> & Hsub).
      exists added. split; [reflexivity | now constructor].
Qed.

(** X10.  [mergeNewDocuments] de-duplicates by normalised source URL: if no
    two existing documents share one, no two documents of the result do,
    whatever the new documents are. *)
Theorem mergeNewDocuments_NoDup (existing newDocuments : list Document) :
  NoDup (map sourceKey existing) ->
  NoDup (map sourceKey (mergeNewDocuments existing newDocuments)).
Proof.
  revert existing. induction newDocuments as [|doc rest IH]; intros existing Hnd.
  - exact Hnd.
  - rewrite mergeNewDocuments_cons. apply IH.
    destruct (existsb (fun d => sameSource d doc) existing) eqn:E; [exact Hnd|].
    cbn [negb]. rewrite map_app. apply NoDup_app. split; [exact Hnd|].
    split; [|apply NoDup_singleton].
    intros k Hk Hin. apply list_elem_of_singleton in Hin. subst k.
    apply existsb_sameSource in Hk. congruence.
Qed.

(** X11.  [mergeNewDocuments] drops no existing document and keeps their
    order: its result is the existing documents followed by some of the new
    ones, in their order; and every new document's normalised source URL is
    that of some document of the result. *)
Theorem mergeNewDocuments_covers (existing newDocuments : list Document) :
  (exists added,
     mergeNewDocuments existing newDocuments = (existing ++ added)%list /\
     sublist added newDocuments) /\
  Forall (fun doc =>
            sourceKey doc ∈ map sourceKey (mergeNewDocuments existing newDocuments))
         newDocuments.
Proof.
  split; [apply mergeNewDocuments_extends|].
  revert existing. induction newDocuments as [|doc rest IH]; intros existing.
  - constructor.
  - rewrite mergeNewDocuments_cons. constructor; [|apply IH].
    set (acc := if negb _ then _ else _).
    assert (Hacc : sourceKey doc ∈ map sourceKey acc).
    { subst acc. destruct (existsb (fun d => sameSource d doc) existing) eqn:E; cbn [negb].
      - now apply existsb_sameSource.
      - rewrite map_app. apply elem_of_app. right. now apply list_elem_of_singleton. }
    destruct (mergeNewDocuments_extends acc rest) as (added & -> & _).
    rewrite map_app. apply elem_of_app. now left.
Qed.

(** ** [runWebScraper] *)



(** ** The crawl controller, further *)





(** X14.  The priority policy is consulted exactly once, with base priority
    21 and the tenant's plan and team, when a validated submission fetches a
    sitemap of more than 1000 entries, and not at all otherwise. *)
Theorem crawlController_priority_lookups (w : World) (req : Request) :
  List.filter isGetJobPriority (snd (crawlController w req))
  = match validationError w req, fetchedSitemap w req with
    | None, Some sitemap =>
        if 1000 <? Z.of_nat (length sitemap)
        then [GetJobPriority (auth_plan req) (auth_team_id req) 21]
        else []
    | _, _ => []
    end.
Proof.
  unfold crawlController.
  destruct (validationError w req); [reflexivity|].
  cbn [snd List.filter isGetJobPriority].
  destruct (fetchedSitemap w req) as [[|x rest]|]; try reflexivity.
  unfold sitemapCalls.
  destruct (1000 <? Z.of_nat (length (x :: rest))); reflexivity.
Qed.

(** Every job the controller enqueues is built by [jobData]. *)
Lemma enqueuedAll_jobData (w : World) (req : Request) (q : QueueJob) :
  In q (enqueuedAll (snd (crawlController w req))) ->
  exists url sitemapped, job_payload q = jobData w req url sitemapped /\
                         job_name q = opt_jobId (job_opts q).
Proof.
  unfold crawlController.
  destruct (validationError w req); [intros []|].
  cbn [snd enqueuedAll flat_map enqueued app].
  destruct (fetchedSitemap w req) as [[|x rest]|].
  - simpl. intros [<- | []]. eauto.
  - unfold sitemapCalls.
    assert (Hjobs : In q (sitemapJobs w req (x :: rest)) ->
              exists url sitemapped, job_payload q = jobData w req url sitemapped /\
                                     job_name q = opt_jobId (job_opts q)).
    { intros Hq. apply list_elem_of_In, list_elem_of_lookup in Hq as (i & Hi).
      apply sitemapJobs_lookup in Hi as (y & _ & ->). simpl. eauto. }
    destruct (1000 <? Z.of_nat (length (x :: rest)));
      cbn [app flat_map enqueued]; rewrite app_nil_r; exact Hjobs.
  - simpl. intros [<- | []]. eauto.
Qed.

(** X15.  Queue and worker together: for a crawl whose id is not the empty
    string, every job the controller enqueues reaches [runWebScraper], through
    [startWebScraperPipeline], in [single_urls] mode, under the crawl's id and
    its own job id, and with [includeRawHtml] on. *)
Theorem crawlController_jobs_include_raw_html (w : World) (req : Request) (q : QueueJob) :
  uuidv4 w 0 <> "" ->
  In q (enqueuedAll (snd (crawlController w req))) ->
  let p := startWebScraperPipeline (workerJob q) in
  rp_pageOptions p !! "includeRawHtml" = Some (JBool true) /\
  rp_mode p = single_urls /\
  rp_crawl_id p = JStr (uuidv4 w 0) /\
  rp_bull_job_id p = job_name q.
Proof.
  intros Hid Hq. apply enqueuedAll_jobData in Hq as (url & sm & Hp & Hn).
  cbv zeta. unfold startWebScraperPipeline, workerJob.
  cbn [job_data job_id rp_pageOptions rp_mode rp_crawl_id rp_bull_job_id].
  rewrite Hp, Hn. cbn [jobData wso_mode wso_crawl_id wso_pageOptions].
  repeat split.
  rewrite spread_lookup. cbn [truthy].
  apply String.eqb_neq in Hid. rewrite Hid. simpl.
  now rewrite lookup_singleton_eq.
Qed.

(** The seed job of the default submission, followed into the worker. *)
Lemma crawlController_jobs_include_raw_html_seed :
  let q := {| job_name := "uuid-1";
              job_payload := jobData seedWorld exampleRequest "https://ex.com/a" JUndefined;
              job_opts := {| opt_jobId := "uuid-1"; opt_priority := 15 |} |} in
  let p := startWebScraperPipeline (workerJob q) in
  rp_pageOptions p !! "includeRawHtml" = Some (JBool true) /\
  rp_mode p = single_urls /\
  rp_crawl_id p = JStr (uuidv4 seedWorld 0) /\
  rp_bull_job_id p = job_name q.
Proof.
  apply (crawlController_jobs_include_raw_html seedWorld exampleRequest).
  - vm_compute. discriminate.
  - vm_compute. left. reflexivity.
Defined.

(** Two spellings of one page among the new documents. *)
Lemma mergeNewDocuments_NoDup_example :
  NoDup (map sourceKey
           (mergeNewDocuments [pageAt "https://www.ex.com/a"]
              [pageAt "https://ex.com/a"; pageAt "https://ex.com/b";
               pageAt "https://www.ex.com/b"])).
Proof.
  apply (mergeNewDocuments_NoDup [pageAt "https://www.ex.com/a"]).
  vm_compute. apply NoDup_singleton.
Defined.

(** X16.  The controller locks exactly the URLs of the jobs it enqueues and
    registers exactly their job ids, all under the crawl's own id and in the
    order of the jobs: nothing is locked or registered that is not
    enqueued, and nothing enqueued is left out. *)
Theorem crawlController_locks_and_members (w : World) (req : Request) :
  let calls := snd (crawlController w req) in
  flat_map lockCalls calls
  = map (fun q => (uuidv4 w 0, wso_url (job_payload q))) (enqueuedAll calls) /\
  flat_map memberCalls calls
  = map (fun q => (uuidv4 w 0, opt_jobId (job_opts q))) (enqueuedAll calls).
Proof.
  cbv zeta. unfold crawlController.
  destruct (validationError w req); [split; reflexivity|].
  cbn [snd flat_map lockCalls memberCalls enqueuedAll enqueued app].
  destruct (fetchedSitemap w req) as [[|x rest]|]; try (split; reflexivity).
  unfold sitemapCalls.
  destruct (1000 <? Z.of_nat (length (x :: rest)));
    cbn [app flat_map lockCalls memberCalls enqueued];
    rewrite !app_nil_r, !map_map; split; reflexivity.
Qed.

(** X17.  On the sitemap path the controller enqueues one job per sitemap
    entry, in the sitemap's order: for the entry's URL, in [single_urls] mode,
    marked [sitemapped], under the crawl's id and named by the uuid drawn for
    it.  No job is enqueued for the seed URL as such. *)
Theorem crawlController_sitemap_jobs (w : World) (req : Request)
    (sitemap : list SitemapLink) :
  validationError w req = None ->
  fetchedSitemap w req = Some sitemap ->
  sitemap <> [] ->
  map (fun q => (job_name q, wso_url (job_payload q), wso_mode (job_payload q),
                 wso_sitemapped (job_payload q), wso_crawl_id (job_payload q)))
      (enqueuedAll (snd (crawlController w req)))
  = imap (fun i x => (uuidv4 w (S i), link_url x, single_urls, JBool true,
                      JStr (uuidv4 w 0)))
         sitemap.
Proof.
  intros Hv Hs Hne.
  rewrite (crawlController_sitemap_calls w req sitemap Hv Hs Hne).
  unfold sitemapCalls, enqueuedAll.
  cbn [flat_map enqueued app].
  destruct (1000 <? Z.of_nat (length sitemap));
    cbn [app flat_map enqueued]; rewrite app_nil_r;
    unfold sitemapJobs; rewrite fmap_imap; reflexivity.
Qed.

(** A sitemap of three pages. *)
Lemma crawlController_sitemap_jobs_small :
  map (fun q => (job_name q, wso_url (job_payload q), wso_mode (job_payload q),
                 wso_sitemapped (job_payload q), wso_crawl_id (job_payload q)))
      (enqueuedAll (snd (crawlController smallSitemapWorld exampleRequest)))
  = imap (fun i x => (uuidv4 smallSitemapWorld (S i), link_url x, single_urls,
                      JBool true, JStr (uuidv4 smallSitemapWorld 0)))
         (sitemapOf 3).
Proof.
  apply (crawlController_sitemap_jobs smallSitemapWorld exampleRequest (sitemapOf 3)).
  - reflexivity.
  - reflexivity.
  - discriminate.
Defined.

Lemma decimal_inj (n m : nat) : decimal n = decimal m -> n = m.
Proof.
  unfold decimal. intros H.
  apply DecimalNat.Unsigned.to_uint_inj.
  apply (f_equal NilEmpty.uint_of_string) in H.
  rewrite !NilEmpty.usu in H. congruence.
Qed.

Lemma worldWith_uuid_inj (crawlerOptions : JsObject)
    (sitemap : option (list SitemapLink)) (i j : nat) :
  uuidv4 (worldWith crawlerOptions sitemap) i = uuidv4 (worldWith crawlerOptions sitemap) j ->
  i = j.
Proof. cbn [uuidv4 worldWith]. intros H. apply decimal_inj. now apply String.app_inj in H. Qed.

(** X18.  If [uuidv4] never repeats itself, the crawl id and the names of
    the jobs enqueued for the crawl are pairwise distinct: no two jobs share
    an id and none has the id of the crawl. *)
Theorem crawlController_job_ids_distinct (w : World) (req : Request) :
  (forall i j, uuidv4 w i = uuidv4 w j -> i = j) ->
  NoDup (uuidv4 w 0 :: map job_name (enqueuedAll (snd (crawlController w req)))).
Proof.
  intros Hinj. unfold crawlController.
  destruct (validationError w req); [apply NoDup_singleton|].
  cbn [snd enqueuedAll flat_map enqueued app].
  assert (Hseed : NoDup [uuidv4 w 0; uuidv4 w 1]).
  { apply NoDup_cons. split; [|apply NoDup_singleton].
    intros Hin. apply list_elem_of_singleton in Hin. now apply Hinj in Hin. }
  destruct (fetchedSitemap w req) as [[|x rest]|]; try exact Hseed.
  assert (Hjobs : NoDup (uuidv4 w 0 :: map job_name (sitemapJobs w req (x :: rest)))).
  { apply NoDup_cons. split.
    - intros Hin. apply list_elem_of_lookup in Hin as (i & Hi).
      rewrite list_lookup_fmap in Hi.
      destruct (sitemapJobs w req (x :: rest) !! i) as [q|] eqn:Hq; [|discriminate].
      apply sitemapJobs_lookup in Hq as (y & _ & ->).
      injection Hi as Hi. now apply Hinj in Hi.
    - apply NoDup_alt. intros i j name Hi Hj.
      rewrite list_lookup_fmap in Hi, Hj.
      destruct (sitemapJobs w req (x :: rest) !! i) as [qi|] eqn:Hqi; [|discriminate].
      destruct (sitemapJobs w req (x :: rest) !! j) as [qj|] eqn:Hqj; [|discriminate].
      apply sitemapJobs_lookup in Hqi as (yi & _ & ->).
      apply sitemapJobs_lookup in Hqj as (yj & _ & ->).
      injection Hi as <-. injection Hj as Hj. apply Hinj in Hj. congruence. }
  unfold sitemapCalls.
  destruct (1000 <? Z.of_nat (length (x :: rest)));
    cbn [app flat_map enqueued]; rewrite app_nil_r; exact Hjobs.
Qed.

(** The three jobs of the small sitemap. *)
Lemma crawlController_job_ids_distinct_small :
  NoDup (uuidv4 smallSitemapWorld 0
         :: map job_name (enqueuedAll (snd (crawlController smallSitemapWorld exampleRequest)))).
Proof.
  apply (crawlController_job_ids_distinct smallSitemapWorld exampleRequest).
  apply worldWith_uuid_inj.
Defined.



(** ** The page options of a provider *)

Lemma list_to_map_defaults (f : string -> JsVal -> JsVal)
    (defaults : list (string * JsVal)) (k : string) :
  (list_to_map (map (fun '(k, d) => (k, f k d)) defaults) : JsObject) !! k
  = f k <$> (list_to_map defaults : JsObject) !! k.
Proof.
  induction defaults as [|[k' d] rest IH]; [reflexivity|].
  cbn [map list_to_map foldr uncurry]. rewrite !lookup_insert. cbn [fst snd].
  destruct (decide (k' = k)) as [->|]; [reflexivity | exact IH].
Qed.

(** X20.  [setOptions] keeps a white list of page options: the stored
    [pageOptions] have exactly the fourteen known keys, each with the given
    value unless that is [undefined] or [null], in which case the default
    stands in; any other key of the given page options is dropped. *)
Theorem setOptions_pageOptions (options : ProviderOptions) (k : string) :
  match setOptions options with
  | Ok this =>
      pageOptions this !! k
      = (fun d => nullish (optProp (po_pageOptions options) k) d)
          <$> (list_to_map pageOptionDefaults : JsObject) !! k
  | Throw _ => po_urls options = None
  end.
Proof.
  unfold setOptions. destruct (po_urls options); [|reflexivity].
  cbn [pageOptions].
  apply (list_to_map_defaults (fun k d => nullish (optProp (po_pageOptions options) k) d)).
Qed.
